(** * DashboardService: a shallow embedding of [src/services/dashboard.service.ts]

    The service is a set of MongoDB aggregation pipelines and [$addToSet]
    updates over one collection of dashboard records.  The embedding keeps the
    shape of the source: the pipelines are written stage by stage ([$match],
    [$project]) with the operators the source uses ([$sum], [$cond], [$eq],
    [$map], [$reduce], [$add], [$month]), the updates thread the collection
    through an error-and-state monad that plays the part of [async]/[await],
    and the collaborators that live outside this file of the repository
    ([createDateFilter], [getMonths], [UserService.getUserById]) are
    variables of a section.

    Conventions.
    - An ObjectId is its 96-bit value, a natural number.
    - A [Date] is a number of milliseconds since the epoch, as in JavaScript
      and BSON; calendar fields are read in UTC, as [$month] does.
    - Amounts are integers (minor units).  The source's numbers are doubles,
      whose addition is exact on integers while the sums stay below 2^53;
      the properties below compare sums only where both sides add the same
      entries in the same order, never regrouped.
    - A collection is the list of its documents in natural order. *)

From Stdlib Require Import ZArith NArith List String Ascii Bool Lia.
Import ListNotations.

Set Warnings "-register-all".

Local Open Scope string_scope.
Local Open Scope Z_scope.

(* ================================================================== *)
(** ** Dates *)

Module Calendar.

Definition Date := Z.

Definition msPerDay : Z := 86400000.

(** Day number (days since 1970-01-01) of a timestamp; [Z.div] rounds
    down, so timestamps before the epoch fall in the right day. *)
Definition dayNumber (t : Date) : Z := t / msPerDay.

(** Position of a day in its 400-year era, the era starting on a 1st of
    March; [0 <= dayOfEra z < 146097]. *)
Definition dayOfEra (z : Z) : Z := (z + 719468) mod 146097.

Definition yearOfEra (doe : Z) : Z :=
  (doe - doe / 1460 + doe / 36524 - doe / 146096) / 365.

(** Day of the year that starts on the 1st of March. *)
Definition dayOfMarchYear (doe : Z) : Z :=
  let yoe := yearOfEra doe in
  doe - (365 * yoe + yoe / 4 - yoe / 100).

(** Month counted from March (0 = March, ..., 11 = February). *)
Definition marchMonth (doy : Z) : Z := (5 * doy + 2) / 153.

Definition monthOfDay (z : Z) : Z :=
  let mp := marchMonth (dayOfMarchYear (dayOfEra z)) in
  if mp <? 10 then mp + 3 else mp - 9.

Definition dayOfMonthOfDay (z : Z) : Z :=
  let doy := dayOfMarchYear (dayOfEra z) in
  doy - (153 * marchMonth doy + 2) / 5 + 1.

Definition yearOfDay (z : Z) : Z :=
  let doe := dayOfEra z in
  let y := yearOfEra doe + ((z + 719468) / 146097) * 400 in
  if monthOfDay z <=? 2 then y + 1 else y.

(** [{ $month: d }]: the month of a date, 1 (January) to 12 (December). *)
Definition op_month (t : Date) : Z := monthOfDay (dayNumber t).

(** [{ $dayOfMonth: d }]: 1 to 31. *)
Definition op_dayOfMonth (t : Date) : Z := dayOfMonthOfDay (dayNumber t).

(** [{ $year: d }]. *)
Definition op_year (t : Date) : Z := yearOfDay (dayNumber t).

(** Day number of a calendar date (month 1..12, day 1..31). *)
Definition daysFromCivil (y m d : Z) : Z :=
  let y' := if m <=? 2 then y - 1 else y in
  let era := y' / 400 in
  let yoe := y' - era * 400 in
  let mp := if m <=? 2 then m + 9 else m - 3 in
  let doy := (153 * mp + 2) / 5 + d - 1 in
  let doe := yoe * 365 + yoe / 4 - yoe / 100 + doy in
  era * 146097 + doe - 719468.

(** [new Date(Date.UTC(y, m - 1, d))]: midnight UTC of a calendar day. *)
Definition utc (y m d : Z) : Date := daysFromCivil y m d * msPerDay.

End Calendar.
Export Calendar.

(* ================================================================== *)
(** ** Documents *)

Definition ObjectId := N.
Bind Scope N_scope with ObjectId.

(** [IDashboardRevenue] *)
Record Revenue := mkRevenue {
  rev_amount : Z;
  rev_date : Date;
  source : ObjectId
}.

(** [IDashboardReceivable] *)
Record Receivable := mkReceivable {
  rcv_amount : Z;
  rcv_date : Date;
  status : string;
  client : ObjectId
}.

(** [IDashboardExpense]; [category] is a string, the service keeps the five
    known categories in [expenseTypes]. *)
Record Expense := mkExpense {
  exp_amount : Z;
  exp_date : Date;
  category : string
}.

(** A document of the [Dashboard] collection. *)
Record Dashboard := mkDashboard {
  _id : ObjectId;
  user : ObjectId;
  revenues : list Revenue;
  receivables : list Receivable;
  expenses : list Expense
}.

Definition Collection := list Dashboard.

Definition revenue_eqb (a b : Revenue) : bool :=
  (rev_amount a =? rev_amount b) && (rev_date a =? rev_date b)
  && N.eqb (source a) (source b).

Definition receivable_eqb (a b : Receivable) : bool :=
  (rcv_amount a =? rcv_amount b) && (rcv_date a =? rcv_date b)
  && String.eqb (status a) (status b) && N.eqb (client a) (client b).

Definition expense_eqb (a b : Expense) : bool :=
  (exp_amount a =? exp_amount b) && (exp_date a =? exp_date b)
  && String.eqb (category a) (category b).

(* ================================================================== *)
(** ** BSON values and the aggregation operators of [$project] *)

(** The values a field path or an operator of the pipelines can yield. *)
Inductive Bson :=
| BMissing
| BNumber (n : Z)
| BString (s : string)
| BDate (t : Date)
| BArray (items : list Bson).

(** [{ $eq: [a, b] }]: equality of BSON values, type and value; an array
    equals only an array with equal items. *)
Fixpoint op_eq (a b : Bson) {struct a} : bool :=
  match a, b with
  | BMissing, BMissing => true
  | BNumber x, BNumber y => x =? y
  | BString x, BString y => String.eqb x y
  | BDate x, BDate y => x =? y
  | BArray xs, BArray ys =>
      (fix items_eq (xs ys : list Bson) {struct xs} : bool :=
         match xs, ys with
         | [], [] => true
         | x :: xs', y :: ys' => op_eq x y && items_eq xs' ys'
         | _, _ => false
         end) xs ys
  | _, _ => false
  end.

(** [{ $cond: [c, t, e] }] *)
Definition op_cond {A : Type} (c : bool) (t e : A) : A := if c then t else e.

(** Numeric value of an item under [$sum]: what is not a number counts 0. *)
Definition numeric (v : Bson) : Z :=
  match v with BNumber n => n | _ => 0 end.

(** [{ $sum: e }] in [$project], one operand: an array is summed over its
    numeric items, a number is itself, anything else is 0. *)
Definition op_sum (v : Bson) : Z :=
  match v with
  | BNumber n => n
  | BArray items => fold_left (fun acc x => acc + numeric x) items 0
  | _ => 0
  end.

(** Field paths through an array of sub-documents yield the array of the
    sub-documents' fields. *)
Definition path_revenues_amount (d : Dashboard) : Bson :=
  BArray (map (fun r => BNumber (rev_amount r)) (revenues d)).
Definition path_receivables_amount (d : Dashboard) : Bson :=
  BArray (map (fun r => BNumber (rcv_amount r)) (receivables d)).
Definition path_receivables_status (d : Dashboard) : Bson :=
  BArray (map (fun r => BString (status r)) (receivables d)).
Definition path_expenses_amount (d : Dashboard) : Bson :=
  BArray (map (fun e => BNumber (exp_amount e)) (expenses d)).

(* ================================================================== *)
(** ** Queries: the filter objects of [$match] *)

(** [$eq], [$gt], [$gte], [$lt], [$lte] against a date. *)
Inductive Comparison := Q_eq | Q_gt | Q_gte | Q_lt | Q_lte.

(** A filter object, read the way the service and [$match] read it: the
    keys it has ([Object.keys]) and the records it selects. *)
Record FilterQuery := mkFilterQuery {
  keys : list string;
  selects : Dashboard -> bool
}.

(** The filter of a [$match] stage as both operations build it:
    [{ user: ObjectId, $and?: FilterQuery[] }]. *)
Record MatchConditions := mkMatch {
  mc_user : ObjectId;
  mc_and : option (list FilterQuery)
}.

Definition compare_dates (c : Comparison) (x operand : Date) : bool :=
  match c with
  | Q_eq => x =? operand
  | Q_gt => operand <? x
  | Q_gte => operand <=? x
  | Q_lt => x <? operand
  | Q_lte => x <=? operand
  end.

(** The dates a dotted path reaches in a record.  A path through an array
    reaches the field of every element; the record has no other dates. *)
Definition dates_at (p : string) (d : Dashboard) : list Date :=
  if String.eqb p "revenues.date" then map rev_date (revenues d)
  else if String.eqb p "receivables.date" then map rcv_date (receivables d)
  else if String.eqb p "expenses.date" then map exp_date (expenses d)
  else [].

(** [{ $op: operand }] on a path through an array holds of a record when
    SOME element satisfies it (the query semantics of array fields). *)
Definition some_date (p : string) (c : Comparison) (t : Date) (d : Dashboard)
    : bool :=
  existsb (fun x => compare_dates c x t) (dates_at p d).

(** The filter object [{ p: { $op: t } }]. *)
Definition condition (p : string) (c : Comparison) (t : Date) : FilterQuery :=
  {| keys := [p]; selects := some_date p c t |}.

Definition matches (mc : MatchConditions) (d : Dashboard) : bool :=
  N.eqb (user d) (mc_user mc)
  && match mc_and mc with
     | None => true
     | Some qs => forallb (fun q => selects q d) qs
     end.

(** [{ $match: mc }] keeps the documents the filter selects. *)
Definition stage_match (mc : MatchConditions) (coll : Collection) : Collection :=
  List.filter (matches mc) coll.

(** [{ $project: ... }] turns every document into one row. *)
Definition stage_project {Row : Type} (f : Dashboard -> Row)
    (docs : Collection) : list Row :=
  map f docs.

(* ================================================================== *)
(** ** Rows, filters, errors *)

(** [filter?: { date?: Date; month?: number; year?: number }] *)
Record OverviewFilter := mkOverviewFilter {
  date : option Date;
  month : option Z;
  year : option Z
}.

(** [filter?: { startDate?: Date; endDate?: Date }] *)
Record ChartsFilter := mkChartsFilter {
  startDate : option Date;
  endDate : option Date
}.

(** [filter?.field] *)
Definition opt {F A : Type} (f : option F) (field : F -> option A) : option A :=
  match f with Some x => field x | None => None end.

(** A row of [getOverview]; [$project] keeps [_id]. *)
Record OverviewRow := mkOverviewRow {
  ov_id : ObjectId;
  totalRevenue : Z;
  totalReceivables : Z;
  pendingReceivables : Z;
  totalExpenses : Z
}.

Record LineChart := mkLineChart {
  lc_labels : list string;
  revenueDataSet : list Z;
  expensesDataSet : list Z
}.

Record Doughnut := mkDoughnut {
  dn_labels : list string;
  datasets : list Z
}.

(** The line chart and the doughnut of a row of [getCharts].  The third
    chart of the row, [currentMonthExpensesAndRevenuesBarChart], is
    [BarChart] below; [Full.getCharts] is the whole call, with the bar chart
    in every row and the two ways the database can refuse the pipeline. *)
Record ChartsRow := mkChartsRow {
  ch_id : ObjectId;
  revenuesAndExpensesLineChart : LineChart;
  expensesDoughnut : Doughnut
}.

(** [Errors] of [exceptions/errors]: the code the service raises itself, and
    the not-found code of the user lookup. *)
Inductive Errors := DashboardDataNotFound | ReferenceNotFound.

(** [new ApiError(code)] *)
Inductive ApiError := mkApiError (code : Errors).

(** How a promise settles. *)
Inductive Outcome (A : Type) :=
| Resolved (a : A)
| Rejected (e : ApiError).
Arguments Resolved {A} a.
Arguments Rejected {A} e.

(** An [async] computation over the collection. *)
Definition Async (A : Type) := Collection -> Outcome A * Collection.

Definition ret {A : Type} (a : A) : Async A := fun coll => (Resolved a, coll).

Definition throw {A : Type} (e : ApiError) : Async A :=
  fun coll => (Rejected e, coll).

(** [await]: a rejection ends the computation where it stands. *)
Definition bind {A B : Type} (m : Async A) (k : A -> Async B) : Async B :=
  fun coll =>
    match m coll with
    | (Resolved a, coll') => k a coll'
    | (Rejected e, coll') => (Rejected e, coll')
    end.

(** A promise that does not touch the collection. *)
Definition settled {A : Type} (o : Outcome A) : Async A := fun coll => (o, coll).

Declare Scope async_scope.
Delimit Scope async_scope with async.
Notation "x <- m ;; k" := (bind m (fun x => k))
  (at level 61, m at next level, right associativity) : async_scope.
Notation "'await' m ;; k" := (bind m (fun _ => k))
  (at level 61, m at next level, right associativity) : async_scope.

(* ================================================================== *)
(** ** Updates *)

(** [$addToSet]: the value is appended unless the array already holds an
    equal one. *)
Definition addToSet {A : Type} (eqb : A -> A -> bool) (x : A) (l : list A)
    : list A :=
  if existsb (eqb x) l then l else (l ++ [x])%list.

(** [{ $addToSet: { revenues: revenue } }] *)
Definition addToSet_revenues (revenue : Revenue) (d : Dashboard) : Dashboard :=
  mkDashboard (_id d) (user d) (addToSet revenue_eqb revenue (revenues d))
              (receivables d) (expenses d).

(** [{ $addToSet: { receivables: receivable } }] *)
Definition addToSet_receivables (receivable : Receivable) (d : Dashboard)
    : Dashboard :=
  mkDashboard (_id d) (user d) (revenues d)
              (addToSet receivable_eqb receivable (receivables d)) (expenses d).

(** [{ $addToSet: { expenses: expense } }] *)
Definition addToSet_expenses (expense : Expense) (d : Dashboard) : Dashboard :=
  mkDashboard (_id d) (user d) (revenues d) (receivables d)
              (addToSet expense_eqb expense (expenses d)).

(** The update of [Model.findByIdAndUpdate(id, update, { new: true })] on the
    collection: the document whose [_id] is [id] is replaced by its update
    and returned as updated; [None] is the [null] of an absent document.
    Entries are values of the entry types, so the schema validators that
    [runValidators] asks for have nothing left to reject. *)
Fixpoint updateById (id : ObjectId) (update : Dashboard -> Dashboard)
    (coll : Collection) : option Dashboard * Collection :=
  match coll with
  | [] => (None, [])
  | d :: rest =>
      if N.eqb (_id d) id then (Some (update d), update d :: rest)
      else let (found, rest') := updateById id update rest in
           (found, d :: rest')
  end.

Definition findByIdAndUpdate (id : ObjectId) (update : Dashboard -> Dashboard)
    : Async (option Dashboard) :=
  fun coll => let (found, coll') := updateById id update coll in
              (Resolved found, coll').

(** [Array.prototype.indexOf]: the first position of [x], or -1. *)
Fixpoint indexOf (l : list string) (x : string) : Z :=
  match l with
  | [] => -1
  | y :: l' =>
      if String.eqb y x then 0
      else let i := indexOf l' x in if i <? 0 then -1 else i + 1
  end.

Definition expenseTypes : list string :=
  [ "Transfer between cards"; "Cash withdrawn"; "Food"; "Taxes"; "Rent" ].

(* ================================================================== *)
(** ** The service *)

Section DashboardService.

(** [createDateFilter(date, month, year)] of [utils/date]: the filter
    object it builds for the given fields, whatever it is. *)
Variable createDateFilter :
  option Date -> option Z -> option Z -> FilterQuery.

(** [const months = getMonths()] of [utils/getMonths]. *)
Variable months : list string.

(** [UserService.getUserById], a read of the user directory. *)
Variable User : Type.
Variable getUserById : ObjectId -> Outcome User.

Definition project_overview (d : Dashboard) : OverviewRow :=
  {| ov_id := _id d;
     totalRevenue := op_sum (path_revenues_amount d);
     totalReceivables := op_sum (path_receivables_amount d);
     pendingReceivables :=
       op_sum (op_cond (op_eq (path_receivables_status d) (BString "Pending"))
                       (path_receivables_amount d)
                       (BNumber 0));
     totalExpenses := op_sum (path_expenses_amount d) |}.

Definition getOverview (userId : ObjectId) (filter : option OverviewFilter)
    (coll : Collection) : list OverviewRow :=
  let dateFilter :=
    createDateFilter (opt filter date) (opt filter month) (opt filter year) in
  let matchConditions :=
    mkMatch userId
      (if (0 <? Z.of_nat (List.length (keys dateFilter)))
       then Some [dateFilter] else None) in
  stage_project project_overview (stage_match matchConditions coll).

(** [$reduce] over the entries with [$add] of a [$cond]: the amounts of
    the entries that pass [test] are added to 0 in array order. *)
Definition reduce_add {E : Type} (test : E -> bool) (amount : E -> Z)
    (input : list E) : Z :=
  fold_left (fun value this => value + op_cond (test this) (amount this) 0)
            input 0.

(** The number the line chart compares every entry's [$month] with.  It is
    computed when the pipeline is built, on the string ['$$month']. *)
Definition monthOperand : Z := indexOf months "$$month" + 1.

Definition project_charts (labels : list string) (d : Dashboard) : ChartsRow :=
  {| ch_id := _id d;
     revenuesAndExpensesLineChart :=
       {| lc_labels := labels;
          revenueDataSet :=
            map (fun _month : string =>
                   reduce_add
                     (fun this => op_month (rev_date this) =? monthOperand)
                     rev_amount (revenues d))
                labels;
          expensesDataSet :=
            map (fun _month : string =>
                   reduce_add
                     (fun this => op_month (exp_date this) =? monthOperand)
                     exp_amount (expenses d))
                labels |};
     expensesDoughnut :=
       {| dn_labels := expenseTypes;
          datasets :=
            map (fun expenseType : string =>
                   reduce_add
                     (fun this => String.eqb expenseType (category this))
                     exp_amount (expenses d))
                expenseTypes |} |}.

Definition isSome {A : Type} (o : option A) : bool :=
  match o with Some _ => true | None => false end.

(** [currentMonth] is [new Date().getMonth()], read from the clock when the
    call is made: 0 (January) to 11 (December).  This is the [$match] and
    the first two entries of the [$project]: the line charts and doughnuts
    of the rows the call returns when the database accepts the pipeline
    ([Full.getCharts] says when it does). *)
Definition getCharts (currentMonth : nat) (userId : ObjectId)
    (filter : option ChartsFilter) (coll : Collection) : list ChartsRow :=
  let labels := firstn currentMonth months in
  let filterOptions :=
    mkMatch userId
      (if isSome (opt filter startDate) || isSome (opt filter endDate)
       then Some
              (app
               (match opt filter startDate with
                | Some s => [ condition "revenues.date" Q_gte s;
                              condition "expenses.date" Q_gte s ]
                | None => []
                end)
               (match opt filter endDate with
                | Some e => [ condition "revenues.date" Q_lte e;
                              condition "expenses.date" Q_lte e ]
                | None => []
                end))
       else None) in
  stage_project (project_charts labels) (stage_match filterOptions coll).

Local Open Scope async_scope.

Definition createRevenue (userId : ObjectId) (revenue : Revenue)
    : Async Dashboard :=
  await settled (getUserById (source revenue)) ;;
  dashboard <- findByIdAndUpdate userId (addToSet_revenues revenue) ;;
  match dashboard with
  | None => throw (mkApiError DashboardDataNotFound)
  | Some dashboard => ret dashboard
  end.

Definition createReceivable (userId : ObjectId) (receivable : Receivable)
    : Async Dashboard :=
  await settled (getUserById (client receivable)) ;;
  dashboard <- findByIdAndUpdate userId (addToSet_receivables receivable) ;;
  match dashboard with
  | None => throw (mkApiError DashboardDataNotFound)
  | Some dashboard => ret dashboard
  end.

Definition createExpense (userId : ObjectId) (expense : Expense)
    : Async Dashboard :=
  dashboard <- findByIdAndUpdate userId (addToSet_expenses expense) ;;
  match dashboard with
  | None => throw (mkApiError DashboardDataNotFound)
  | Some dashboard => ret dashboard
  end.

End DashboardService.

Arguments createRevenue {User} getUserById userId revenue _.
Arguments createReceivable {User} getUserById userId receivable _.

(* ================================================================== *)
(** ** Reference definitions: what the properties below are stated with *)

Definition sum_list (l : list Z) : Z := fold_right Z.add 0 l.

(** The sum of [amount] over the entries of [l] that pass [test]. *)
Definition sumWhere {E : Type} (test : E -> bool) (amount : E -> Z)
    (l : list E) : Z :=
  sum_list (map amount (List.filter test l)).

(** What the filter object of [getOverview] asks of a record: nothing when
    it has no key. *)
Definition selectedBy (dateFilter : FilterQuery) (d : Dashboard) : bool :=
  match keys dateFilter with
  | [] => true
  | _ :: _ => selects dateFilter d
  end.

(** The body of the three create operations once the reference is accepted:
    the update by [_id], and [DashboardDataNotFound] for an absent record. *)
Definition applyUpdate (userId : ObjectId) (update : Dashboard -> Dashboard)
    (coll : Collection) : Outcome Dashboard * Collection :=
  match updateById userId update coll with
  | (Some dashboard, coll') => (Resolved dashboard, coll')
  | (None, coll') => (Rejected (mkApiError DashboardDataNotFound), coll')
  end.

(** [Model.findById]: the document an identifier names. *)
Definition findById (id : ObjectId) (coll : Collection) : option Dashboard :=
  List.find (fun d => N.eqb (_id d) id) coll.

(** The entry-level reading of an overview filter: the exact day when
    [date] is given, else the year (and the month in it, 1 to 12, when
    given), else every date. *)
Definition inOverviewFilter (filter : option OverviewFilter) (t : Date) : bool :=
  match opt filter date with
  | Some day => dayNumber t =? dayNumber day
  | None =>
      match opt filter year with
      | Some y =>
          (op_year t =? y)
          && match opt filter month with
             | Some m => op_month t =? m
             | None => true
             end
      | None => true
      end
  end.

(** The overview row with every sum restricted to the entries whose date
    passes the filter, and the pending sum to status ["Pending"]. *)
Definition overviewOfMatchingEntries (filter : option OverviewFilter)
    (d : Dashboard) : OverviewRow :=
  {| ov_id := _id d;
     totalRevenue :=
       sumWhere (fun r => inOverviewFilter filter (rev_date r)) rev_amount
                (revenues d);
     totalReceivables :=
       sumWhere (fun r => inOverviewFilter filter (rcv_date r)) rcv_amount
                (receivables d);
     pendingReceivables :=
       sumWhere (fun r => inOverviewFilter filter (rcv_date r)
                          && String.eqb (status r) "Pending")
                rcv_amount (receivables d);
     totalExpenses :=
       sumWhere (fun e => inOverviewFilter filter (exp_date e)) exp_amount
                (expenses d) |}.

(** The entry-level reading of a date range, both bounds inclusive. *)
Definition inRange (filter : option ChartsFilter) (t : Date) : bool :=
  match opt filter startDate with Some s => s <=? t | None => true end
  && match opt filter endDate with Some e => t <=? e | None => true end.

(** A record with its revenue and expense entries restricted to a range. *)
Definition restrictedToRange (filter : option ChartsFilter) (d : Dashboard)
    : Dashboard :=
  mkDashboard (_id d) (user d)
    (List.filter (fun r => inRange filter (rev_date r)) (revenues d))
    (receivables d)
    (List.filter (fun e => inRange filter (exp_date e)) (expenses d)).

(** What a date range asks of a whole record: some revenue entry and some
    expense entry on or after [startDate], and some revenue entry and some
    expense entry on or before [endDate] (not necessarily the same ones). *)
Definition rangeSelects (filter : option ChartsFilter) (d : Dashboard) : bool :=
  match opt filter startDate with
  | Some s => existsb (fun r => s <=? rev_date r) (revenues d)
              && existsb (fun e => s <=? exp_date e) (expenses d)
  | None => true
  end
  && match opt filter endDate with
     | Some e => existsb (fun r => rev_date r <=? e) (revenues d)
                 && existsb (fun x => exp_date x <=? e) (expenses d)
     | None => true
     end.

(** The line-chart bucket of a label if an entry were counted when its
    month number equals the position of the label in the month list. *)
Definition bucketByLabelIndex {E : Type} (months : list string)
    (date_of : E -> Date) (amount : E -> Z) (entries : list E)
    (label : string) : Z :=
  sumWhere (fun this => op_month (date_of this) =? indexOf months label)
           amount entries.

(* ================================================================== *)
(** ** Instances of the collaborators, and sample data *)

(** Modelled from the spec: [getMonths] of [utils/getMonths] is not among the
    sources; the spec calls its result "month-name list (ordered, 12
    entries, locale-fixed)". *)
Definition monthNames : list string :=
  [ "January"; "February"; "March"; "April"; "May"; "June"; "July";
    "August"; "September"; "October"; "November"; "December" ].

(** Modelled from the spec: [UserService.getUserById] is not among the
    sources; the spec has it "fail distinctly when id does not resolve to a
    user", with a not-found error.  [users] is the user directory. *)
Definition lookupIn (users : list ObjectId) (id : ObjectId) : Outcome ObjectId :=
  if existsb (N.eqb id) users then Resolved id
  else Rejected (mkApiError ReferenceNotFound).

(** Modelled from the spec: [createDateFilter] of [utils/date] is not among
    the sources; the spec has it match "the exact day" when [date] is given,
    "that month or year span" when [year] is given, and nothing otherwise.
    The spec does not name the path the filter object constrains: it is the
    parameter [p] here. *)
Definition createDateFilterOn (p : string)
    (date : option Date) (month year : option Z) : FilterQuery :=
  let span (from until : Date) :=
    {| keys := [p];
       selects := fun d => some_date p Q_gte from d && some_date p Q_lt until d |}
  in
  match date with
  | Some t => span (dayNumber t * msPerDay) ((dayNumber t + 1) * msPerDay)
  | None =>
      match year with
      | Some y =>
          match month with
          | Some m => span (utc y m 1) (utc y (m + 1) 1)
          | None => span (utc y 1 1) (utc (y + 1) 1 1)
          end
      | None => {| keys := []; selects := fun _ => true |}
      end
  end.

Definition emptyRecord (id owner : ObjectId) : Dashboard :=
  mkDashboard id owner [] [] [].

(** User 7 with one pending receivable of 50. *)
Definition recordWithPending : Dashboard :=
  mkDashboard 1 7 [] [ mkReceivable 50 (utc 2024 3 10) "Pending" 8 ] [].

(** User 7 with revenues of 100 on 2023-12-05 and 200 on 2024-03-10. *)
Definition recordTwoYears : Dashboard :=
  mkDashboard 1 7
    [ mkRevenue 100 (utc 2023 12 5) 8; mkRevenue 200 (utc 2024 3 10) 8 ]
    [] [].

(** User 7 with a revenue of 100 on 2024-01-05 and a Food expense of 40 on
    2024-02-11. *)
Definition recordJanFeb : Dashboard :=
  mkDashboard 1 7
    [ mkRevenue 100 (utc 2024 1 5) 8 ]
    []
    [ mkExpense 40 (utc 2024 2 11) "Food" ].

(** User 7 with a revenue on 2024-02-01 and Food expenses of 10 on
    2024-01-01 and 20 on 2024-03-01. *)
Definition recordAroundFebruary : Dashboard :=
  mkDashboard 1 7
    [ mkRevenue 5 (utc 2024 2 1) 8 ]
    []
    [ mkExpense 10 (utc 2024 1 1) "Food"; mkExpense 20 (utc 2024 3 1) "Food" ].

Definition fromFebruary : option ChartsFilter :=
  Some (mkChartsFilter (Some (utc 2024 2 1)) None).

Definition year2024 : option OverviewFilter :=
  Some (mkOverviewFilter None None (Some 2024)).

(** A record of user 7 stored under identifier 1, and a record of user 9
    stored under identifier 7. *)
Definition crossedIds : Collection := [ emptyRecord 1 7; emptyRecord 7 9 ].

Definition lunch : Expense := mkExpense 12 (utc 2024 5 2) "Food".
Definition crypto : Expense := mkExpense 99 (utc 2024 5 3) "Crypto".
Definition ghostRevenue : Revenue := mkRevenue 10 (utc 2024 5 2) 404.
Definition ghostReceivable : Receivable :=
  mkReceivable 50 (utc 2024 5 2) "Pending" 404.
Definition goodRevenue : Revenue := mkRevenue 10 (utc 2024 5 2) 8.
Definition goodReceivable : Receivable :=
  mkReceivable 50 (utc 2024 5 2) "Pending" 8.

(* ================================================================== *)
(** ** The bar chart of [getCharts] *)

(** The value of a decimal digit. *)
Definition digitValue (c : ascii) : option Z :=
  let n := Z.of_nat (nat_of_ascii c) in
  if (48 <=? n) && (n <=? 57) then Some (n - 48) else None.

(** The number a string of decimal digits writes, most significant digit
    first, continuing from [acc]. *)
Fixpoint digitsFrom (acc : Z) (s : string) : option Z :=
  match s with
  | EmptyString => Some acc
  | String c rest =>
      match digitValue c with
      | Some v => digitsFrom (10 * acc + v) rest
      | None => None
      end
  end.

(** [{ $toInt: s }] on a string: an optional sign and at least one decimal
    digit, nothing else, the value within 32 bits; [None] is the conversion
    error, which fails the aggregation. *)
Definition op_toInt (s : string) : option Z :=
  let unsigned (negative : bool) (body : string) :=
    match body with
    | EmptyString => None
    | String _ _ =>
        match digitsFrom 0 body with
        | Some n =>
            let v := if negative then - n else n in
            if (-2147483648 <=? v) && (v <=? 2147483647) then Some v else None
        | None => None
        end
    end in
  match s with
  | EmptyString => None
  | String c rest =>
      if Ascii.eqb c "-"%char then unsigned true rest
      else if Ascii.eqb c "+"%char then unsigned false rest
      else unsigned false s
  end.

(** The [$reduce] of the bar chart for one [day] label: [$toInt] is
    evaluated on the label once per entry, inside the [$eq], so it is not
    evaluated at all over an empty array. *)
Fixpoint reduce_day {E : Type} (date_of : E -> Date) (amount : E -> Z)
    (day : string) (input : list E) (value : Z) : option Z :=
  match input with
  | [] => Some value
  | this :: rest =>
      match op_toInt day with
      | Some n =>
          reduce_day date_of amount day rest
            (value + op_cond (op_dayOfMonth (date_of this) =? n)
                             (amount this) 0)
      | None => None
      end
  end.

(** [$map] whose [in] expression can fail. *)
Fixpoint map_in {A B : Type} (f : A -> option B) (l : list A)
    : option (list B) :=
  match l with
  | [] => Some []
  | x :: l' =>
      match f x, map_in f l' with
      | Some y, Some ys => Some (y :: ys)
      | _, _ => None
      end
  end.

(** [revenueDataSet] and [expensesDataSet] of the bar chart: one [$reduce]
    per day label. *)
Definition barDataSet {E : Type} (date_of : E -> Date) (amount : E -> Z)
    (dayLabels : list string) (input : list E) : option (list Z) :=
  map_in (fun day => reduce_day date_of amount day input 0) dayLabels.

(** [currentMonthExpensesAndRevenuesBarChart] as a row carries it.  The
    bare number under [currentMonth] is read by [$project] as a flag, not as
    a value: a non-zero number asks to keep a field the records do not
    have, so the rows have no [currentMonth] entry; 0 is refused (see
    [Full.getCharts]). *)
Record BarChart := mkBarChart {
  bc_labels : list string;
  bc_revenueDataSet : list Z;
  bc_expensesDataSet : list Z
}.

(** The bar chart of one record; [dayLabels] is [getDaysList()]. *)
Definition project_barChart (dayLabels : list string) (d : Dashboard)
    : option BarChart :=
  match barDataSet rev_date rev_amount dayLabels (revenues d),
        barDataSet exp_date exp_amount dayLabels (expenses d) with
  | Some rs, Some es => Some (mkBarChart dayLabels rs es)
  | _, _ => None
  end.

(** Modelled from the spec: [getDaysList] of [utils/getDaysList] is not
    among the sources; the spec has it list "every day-of-month number as a
    zero-padded two-character string", "01" to "31". *)
Definition dayNumerals : list string :=
  [ "01"; "02"; "03"; "04"; "05"; "06"; "07"; "08"; "09"; "10";
    "11"; "12"; "13"; "14"; "15"; "16"; "17"; "18"; "19"; "20";
    "21"; "22"; "23"; "24"; "25"; "26"; "27"; "28"; "29"; "30"; "31" ].

Definition daysOfMonth : list Z :=
  [ 1; 2; 3; 4; 5; 6; 7; 8; 9; 10; 11; 12; 13; 14; 15; 16; 17; 18; 19; 20;
    21; 22; 23; 24; 25; 26; 27; 28; 29; 30; 31 ].

(** The whole [getCharts] call, as the database answers it. *)
Module Full.

(** Why the database refuses an aggregation. *)
Inductive ServerError :=
| InvalidProjection   (* an exclusion flag beside computed fields *)
| ConversionFailure.  (* [$toInt] on a string that is no integer *)

(** What [Dashboard.aggregate] settles with. *)
Inductive Answer (A : Type) :=
| Rows (rows : A)
| Refused (e : ServerError).
Arguments Rows {A} rows.
Arguments Refused {A} e.

(** A complete row: the line chart and the doughnut, and the bar chart. *)
Record ChartBundle := mkChartBundle {
  cb_charts : ChartsRow;
  cb_bar : BarChart
}.

(** [filterOptions] of [getCharts]. *)
Definition chartsMatch (userId : ObjectId) (filter : option ChartsFilter)
    : MatchConditions :=
  mkMatch userId
    (if isSome (opt filter startDate) || isSome (opt filter endDate)
     then Some
            (app
             (match opt filter startDate with
              | Some s => [ condition "revenues.date" Q_gte s;
                            condition "expenses.date" Q_gte s ]
              | None => []
              end)
             (match opt filter endDate with
              | Some e => [ condition "revenues.date" Q_lte e;
                            condition "expenses.date" Q_lte e ]
              | None => []
              end))
     else None).

(** The [$project] of one record; it fails when [$toInt] does. *)
Definition project_bundle (months labels dayLabels : list string)
    (d : Dashboard) : option ChartBundle :=
  match project_barChart dayLabels d with
  | Some bar => Some (mkChartBundle (project_charts months labels d) bar)
  | None => None
  end.

(** [getCharts(userId, filter)].  [months] is [getMonths()], [dayLabels] is
    [getDaysList()], [currentMonth] is [new Date().getMonth()].  The
    [$project] holds [currentMonth] as a bare number: when it is 0 that is
    an exclusion flag beside computed fields and the database refuses the
    pipeline before it reads any record. *)
Definition getCharts (months dayLabels : list string) (currentMonth : nat)
    (userId : ObjectId) (filter : option ChartsFilter) (coll : Collection)
    : Answer (list ChartBundle) :=
  let labels := firstn currentMonth months in
  if Nat.eqb currentMonth 0 then Refused InvalidProjection
  else
    match map_in (project_bundle months labels dayLabels)
                 (stage_match (chartsMatch userId filter) coll) with
    | Some rows => Rows rows
    | None => Refused ConversionFailure
    end.

End Full.

(** How many entries of [l] equal [e]. *)
Definition stored (e : Expense) (l : list Expense) : nat :=
  List.length (List.filter (expense_eqb e) l).

(** User 7 stored under 7, holding one expense. *)
Definition recordWithLunch : Dashboard := mkDashboard 7 7 [] [] [lunch].

(** [l'] is [l] with entries appended. *)
Definition extends {A : Type} (l l' : list A) : Prop :=
  exists added, l' = (l ++ added)%list.

(** [coll'] is [coll] itself, or [coll] with the first record stored under
    [id] replaced by a record that [grow] relates to it. *)
Definition sameOrGrown (id : ObjectId) (grow : Dashboard -> Dashboard -> Prop)
    (coll coll' : Collection) : Prop :=
  coll' = coll
  \/ exists pre d0 d1 post,
       coll = (pre ++ d0 :: post)%list
       /\ coll' = (pre ++ d1 :: post)%list
       /\ (forall d, In d pre -> _id d <> id)
       /\ _id d0 = id
       /\ grow d0 d1.


(** User 7 stored under 7, with revenues on the 5th of January and of March
    2024 and an expense on the 5th of December 2023. *)
Definition recordFifths : Dashboard :=
  mkDashboard 7 7
    [ mkRevenue 100 (utc 2024 1 5) 8; mkRevenue 200 (utc 2024 3 5) 8 ]
    []
    [ mkExpense 30 (utc 2023 12 5) "Food" ].

(* ================================================================== *)
(** * Properties *)

(** A literal string is none of the literals of a list. *)
Ltac not_listed :=
  let H := fresh "H" in
  intros H; simpl in H;
  repeat (destruct H as [H|H]; [discriminate H|]); exact H.

(** ** The calendar *)

Lemma dayOfEra_range (z : Z) : 0 <= dayOfEra z < 146097.
Proof. unfold dayOfEra. apply Z.mod_pos_bound. lia. Qed.

Lemma dayOfMarchYear_range (doe : Z) :
  0 <= doe < 146097 -> 0 <= dayOfMarchYear doe <= 365.
Proof.
  intros H. unfold dayOfMarchYear, yearOfEra.
  Z.div_mod_to_equations; lia.
Qed.

Lemma marchMonth_range (z : Z) :
  0 <= marchMonth (dayOfMarchYear (dayOfEra z)) <= 11.
Proof.
  pose proof (dayOfMarchYear_range _ (dayOfEra_range z)) as H.
  unfold marchMonth. Z.div_mod_to_equations; lia.
Qed.

(** [$month] yields a month number from 1 to 12, for every timestamp. *)
Lemma op_month_range (t : Date) : 1 <= op_month t <= 12.
Proof.
  unfold op_month, monthOfDay.
  pose proof (marchMonth_range (dayNumber t)) as H.
  destruct (Z.ltb_spec (marchMonth (dayOfMarchYear (dayOfEra (dayNumber t)))) 10);
    lia.
Qed.

(* ================================================================== *)
(** ** Sums *)

Lemma fold_left_add {E : Type} (f : E -> Z) (l : list E) :
  forall acc, fold_left (fun value this => value + f this) l acc
              = acc + sum_list (map f l).
Proof.
  induction l as [|x l IH]; intros acc; simpl.
  - lia.
  - rewrite IH. lia.
Qed.

(** [$sum] of a path through an array of sub-documents is the sum of the
    field over all the elements. *)
Lemma op_sum_path {E : Type} (f : E -> Z) (l : list E) :
  op_sum (BArray (map (fun x => BNumber (f x)) l)) = sum_list (map f l).
Proof.
  unfold op_sum.
  rewrite (fold_left_add numeric), map_map. simpl. reflexivity.
Qed.

(** [$reduce] with [$add] of a [$cond] is the sum over the entries that pass
    the test. *)
Lemma reduce_add_sumWhere {E : Type} (test : E -> bool) (amount : E -> Z)
    (l : list E) :
  reduce_add test amount l = sumWhere test amount l.
Proof.
  unfold reduce_add, sumWhere.
  rewrite (fold_left_add (fun this => op_cond (test this) (amount this) 0)).
  induction l as [|x l IH]; simpl; [reflexivity|].
  unfold op_cond at 1. destruct (test x); simpl in *; lia.
Qed.

Lemma sumWhere_nil {E : Type} (test : E -> bool) (amount : E -> Z) :
  sumWhere test amount [] = 0.
Proof. reflexivity. Qed.

Lemma sumWhere_never {E : Type} (test : E -> bool) (amount : E -> Z)
    (l : list E) :
  (forall x, test x = false) -> sumWhere test amount l = 0.
Proof.
  intros Hnever. unfold sumWhere.
  induction l as [|x l IH]; simpl; [reflexivity|].
  rewrite Hnever. exact IH.
Qed.

(* ================================================================== *)
(** ** getOverview *)

(** The [$match] of [getOverview]: the record belongs to [userId] and
    satisfies the filter object (the empty object asks nothing). *)
Lemma getOverview_unfold createDateFilter userId filter coll :
  getOverview createDateFilter userId filter coll
  = map project_overview
      (List.filter
         (fun d => N.eqb (user d) userId
                   && selectedBy (createDateFilter (opt filter date)
                                    (opt filter month) (opt filter year)) d)
         coll).
Proof.
  unfold getOverview, stage_project, stage_match. f_equal.
  apply filter_ext. intros d. unfold matches, selectedBy. simpl.
  destruct (keys (createDateFilter _ _ _)) as [|k ks]; simpl.
  - reflexivity.
  - rewrite andb_true_r. reflexivity.
Qed.

(** [$eq] never holds between the array of the statuses and the string
    ["Pending"], so the [$cond] of [pendingReceivables] always takes its
    third operand. *)
Lemma pendingReceivables_zero (d : Dashboard) :
  pendingReceivables (project_overview d) = 0.
Proof. reflexivity. Qed.

(** C1 (as amended).  Whatever filter object [createDateFilter] builds,
    [getOverview] returns one row for each record of [userId] that satisfies
    the filter object as a whole record; in each row [totalRevenue],
    [totalReceivables] and [totalExpenses] are the sums of [amount] over ALL
    the revenue, receivable and expense entries of that record. *)
Theorem getOverview_totals_over_selected_records :
  forall createDateFilter userId filter coll,
    getOverview createDateFilter userId filter coll
    = map project_overview
        (List.filter
           (fun d => N.eqb (user d) userId
                     && selectedBy (createDateFilter (opt filter date)
                                      (opt filter month) (opt filter year)) d)
           coll)
    /\ forall d,
         ov_id (project_overview d) = _id d
         /\ totalRevenue (project_overview d)
            = sum_list (map rev_amount (revenues d))
         /\ totalReceivables (project_overview d)
            = sum_list (map rcv_amount (receivables d))
         /\ totalExpenses (project_overview d)
            = sum_list (map exp_amount (expenses d)).
Proof.
  intros createDateFilter userId filter coll. split.
  - apply getOverview_unfold.
  - intros d. split; [reflexivity|].
    split; [apply (op_sum_path rev_amount)|].
    split; [apply (op_sum_path rcv_amount)|apply (op_sum_path exp_amount)].
Qed.

(** C1, counterexample.  With no filter, a record with one pending
    receivable of 50 gets [pendingReceivables = 0], not 50.  With the filter
    [year = 2024] built on the revenue dates, a record with revenues of 100
    in 2023 and 200 in 2024 is selected and gets [totalRevenue = 300], not
    the 200 of the entries of 2024. *)
Lemma getOverview_not_over_matching_entries :
  (getOverview (createDateFilterOn "revenues.date") 7 None [recordWithPending]
   = [ mkOverviewRow 1 0 50 0 0 ]
   /\ overviewOfMatchingEntries None recordWithPending
      = mkOverviewRow 1 0 50 50 0)
  /\ (getOverview (createDateFilterOn "revenues.date") 7 year2024
        [recordTwoYears]
      = [ mkOverviewRow 1 300 0 0 0 ]
      /\ overviewOfMatchingEntries year2024 recordTwoYears
         = mkOverviewRow 1 200 0 0 0).
Proof. repeat split; vm_compute; reflexivity. Qed.

(* ================================================================== *)
(** ** getCharts *)

Lemma existsb_over_map {A B : Type} (p : B -> bool) (g : A -> B) (l : list A) :
  existsb p (map g l) = existsb (fun x => p (g x)) l.
Proof.
  induction l as [|x l IH]; simpl; [reflexivity|]. rewrite IH. reflexivity.
Qed.

(** The [$match] of [getCharts] selects by [user] and by [rangeSelects]. *)
Lemma getCharts_unfold months currentMonth userId filter coll :
  getCharts months currentMonth userId filter coll
  = map (project_charts months (firstn currentMonth months))
      (List.filter (fun d => N.eqb (user d) userId && rangeSelects filter d)
                   coll).
Proof.
  unfold getCharts, stage_project, stage_match. f_equal.
  apply filter_ext. intros d. unfold matches, rangeSelects. simpl. f_equal.
  destruct (opt filter startDate) as [s|], (opt filter endDate) as [e|];
    simpl; unfold some_date, dates_at; simpl;
    rewrite ?existsb_over_map, ?andb_true_r; try reflexivity.
  rewrite <- !andb_assoc. reflexivity.
Qed.

Lemma getCharts_rows months currentMonth userId filter coll row :
  In row (getCharts months currentMonth userId filter coll) ->
  exists d, In d coll /\ user d = userId /\ rangeSelects filter d = true
            /\ row = project_charts months (firstn currentMonth months) d.
Proof.
  rewrite getCharts_unfold. intros Hin.
  apply in_map_iff in Hin as (d & Hrow & Hd).
  apply filter_In in Hd as (Hd & Hsel).
  apply andb_true_iff in Hsel as (Hu & Hr). apply N.eqb_eq in Hu.
  exists d. auto.
Qed.

(** The [$match] of the whole call is the [$match] of [getCharts]. *)
Lemma stage_match_charts userId filter coll :
  stage_match (Full.chartsMatch userId filter) coll
  = List.filter (fun d => N.eqb (user d) userId && rangeSelects filter d) coll.
Proof.
  unfold stage_match. apply filter_ext. intros d.
  unfold matches, rangeSelects, Full.chartsMatch. simpl. f_equal.
  destruct (opt filter startDate) as [s|], (opt filter endDate) as [e|];
    simpl; unfold some_date, dates_at; simpl;
    rewrite ?existsb_over_map, ?andb_true_r; try reflexivity.
  rewrite <- !andb_assoc. reflexivity.
Qed.

Lemma map_in_project {A B C : Type} (f : A -> option B) (h : B -> C)
    (g : A -> C) (l : list A) :
  (forall x y, f x = Some y -> h y = g x) ->
  forall ys, map_in f l = Some ys -> map h ys = map g l.
Proof.
  intros Hfg. induction l as [|x l IH]; intros ys Hys; simpl in Hys.
  - injection Hys as <-. reflexivity.
  - destruct (f x) as [y|] eqn:Hx; [|discriminate].
    destruct (map_in f l) as [ys'|]; [|discriminate].
    injection Hys as <-. simpl. rewrite (Hfg x y Hx), (IH ys' eq_refl).
    reflexivity.
Qed.

Lemma map_in_defined {A B : Type} (f : A -> option B) (l : list A) :
  (forall x, In x l -> exists y, f x = Some y) ->
  exists ys, map_in f l = Some ys.
Proof.
  induction l as [|x l IH]; intros Hdef; simpl.
  - exists []. reflexivity.
  - destruct (Hdef x (or_introl eq_refl)) as [y ->].
    destruct IH as [ys ->]; [intros x' Hx'; apply Hdef; right; exact Hx'|].
    exists (y :: ys). reflexivity.
Qed.

(** In January the database refuses the pipeline, whatever is stored. *)
Lemma Full_getCharts_january months dayLabels userId filter coll :
  Full.getCharts months dayLabels 0 userId filter coll
  = Full.Refused Full.InvalidProjection.
Proof. reflexivity. Qed.

(** When the call returns rows, their line charts and doughnuts are the
    rows of [getCharts]: what is proved of every row of [getCharts] holds of
    every row the call returns. *)
Lemma Full_getCharts_charts months dayLabels currentMonth userId filter coll
    rows :
  Full.getCharts months dayLabels currentMonth userId filter coll
  = Full.Rows rows ->
  map Full.cb_charts rows = getCharts months currentMonth userId filter coll.
Proof.
  unfold Full.getCharts. destruct (Nat.eqb currentMonth 0); [discriminate|].
  destruct (map_in _ _) as [ys|] eqn:Hys; [|discriminate].
  intros Hrows. injection Hrows as <-.
  change (getCharts months currentMonth userId filter coll)
    with (map (project_charts months (firstn currentMonth months))
              (stage_match (Full.chartsMatch userId filter) coll)).
  apply (map_in_project
           (Full.project_bundle months (firstn currentMonth months) dayLabels)
           Full.cb_charts); [|exact Hys].
  intros d b Hb. unfold Full.project_bundle in Hb.
  destruct (project_barChart dayLabels d); [|discriminate].
  injection Hb as <-. reflexivity.
Qed.

Lemma none_of_user userId (p : Dashboard -> bool) coll :
  (forall d, In d coll -> user d <> userId) ->
  List.filter (fun d => N.eqb (user d) userId && p d) coll = [].
Proof.
  intros Habsent. induction coll as [|d rest IH]; simpl; [reflexivity|].
  destruct (N.eqb_spec (user d) userId) as [Heq|_].
  - exfalso. apply (Habsent d); [left; reflexivity|exact Heq].
  - simpl. apply IH. intros d' Hd'. apply Habsent. right. exact Hd'.
Qed.

(** Outside January, with no record of the user, the call returns no row
    and converts no label. *)
Lemma Full_getCharts_of_absent_user months dayLabels currentMonth userId
    filter coll :
  currentMonth <> 0%nat ->
  (forall d, In d coll -> user d <> userId) ->
  Full.getCharts months dayLabels currentMonth userId filter coll
  = Full.Rows [].
Proof.
  intros Hmonth Habsent. unfold Full.getCharts.
  rewrite (proj2 (Nat.eqb_neq _ _) Hmonth), stage_match_charts,
    (none_of_user _ _ _ Habsent).
  reflexivity.
Qed.

Lemma indexOf_absent (l : list string) (x : string) :
  ~ In x l -> indexOf l x = -1.
Proof.
  induction l as [|y l IH]; intros Hnot; simpl; [reflexivity|].
  destruct (String.eqb_spec y x) as [->|Hne].
  - exfalso. apply Hnot. left. reflexivity.
  - rewrite IH by (intros Hin; apply Hnot; right; exact Hin). reflexivity.
Qed.

(** What the line chart computes.  In every row of [getCharts] it has one
    bucket per label, in label order, and every bucket is the sum of the
    amounts of the revenue (resp. expense) entries of the record whose month
    number equals [months.indexOf('$$month') + 1]: the [$map] variable never
    reaches the comparison, unlike ['$$expenseType'] and ['$$day'] in the
    two other charts. *)
Lemma line_chart_buckets_by_fixed_operand :
  forall months currentMonth userId filter coll,
    Forall
      (fun row =>
         exists d, In d coll /\ user d = userId /\ ch_id row = _id d
           /\ lc_labels (revenuesAndExpensesLineChart row)
              = firstn currentMonth months
           /\ revenueDataSet (revenuesAndExpensesLineChart row)
              = map (fun _ =>
                       sumWhere (fun r => op_month (rev_date r)
                                          =? indexOf months "$$month" + 1)
                                rev_amount (revenues d))
                    (firstn currentMonth months)
           /\ expensesDataSet (revenuesAndExpensesLineChart row)
              = map (fun _ =>
                       sumWhere (fun e => op_month (exp_date e)
                                          =? indexOf months "$$month" + 1)
                                exp_amount (expenses d))
                    (firstn currentMonth months))
      (getCharts months currentMonth userId filter coll).
Proof.
  intros months currentMonth userId filter coll.
  apply Forall_forall. intros row Hin.
  apply getCharts_rows in Hin as (d & Hd & Hu & _ & ->).
  exists d. simpl. repeat split; auto.
  - apply map_ext. intros _. apply reduce_add_sumWhere.
  - apply map_ext. intros _. apply reduce_add_sumWhere.
Qed.

(** C2, the code at the failing input.  In June, for a record with a
    revenue of 100 in January and an expense of 40 in February, every bucket
    of the line chart is 0: no label collects any entry.  Bucketing by the
    position of the label in the month list gives 100 under "February"
    (position 1) and 40 under "March" (position 2).  The last part is the
    same call in full, with the labels "01" to "31". *)
Lemma line_chart_ignores_label_position :
  map (fun row => revenueDataSet (revenuesAndExpensesLineChart row))
      (getCharts monthNames 5 7 None [recordJanFeb])
  = [ [0; 0; 0; 0; 0] ]
  /\ map (fun row => expensesDataSet (revenuesAndExpensesLineChart row))
         (getCharts monthNames 5 7 None [recordJanFeb])
     = [ [0; 0; 0; 0; 0] ]
  /\ map (bucketByLabelIndex monthNames rev_date rev_amount
            (revenues recordJanFeb))
         (firstn 5 monthNames)
     = [0; 100; 0; 0; 0]
  /\ map (bucketByLabelIndex monthNames exp_date exp_amount
            (expenses recordJanFeb))
         (firstn 5 monthNames)
     = [0; 0; 40; 0; 0]
  /\ (exists rows,
        Full.getCharts monthNames dayNumerals 5 7 None [recordJanFeb]
        = Full.Rows rows
        /\ map (fun b => revenuesAndExpensesLineChart (Full.cb_charts b)) rows
           = [ mkLineChart [ "January"; "February"; "March"; "April"; "May" ]
                           [0; 0; 0; 0; 0] [0; 0; 0; 0; 0] ]).
Proof.
  repeat (split; [vm_compute; reflexivity|]).
  eexists. split; vm_compute; reflexivity.
Qed.

Lemma never_month_zero months (t : Date) :
  ~ In "$$month" months -> (op_month t =? monthOperand months) = false.
Proof.
  intros Hnot. unfold monthOperand. rewrite (indexOf_absent _ _ Hnot).
  pose proof (op_month_range t). apply Z.eqb_neq. lia.
Qed.

Lemma reduce_add_never {E : Type} (test : E -> bool) (amount : E -> Z)
    (l : list E) :
  (forall x, test x = false) -> reduce_add test amount l = 0.
Proof.
  intros H. rewrite reduce_add_sumWhere. apply sumWhere_never. exact H.
Qed.

(** C3.  When ['$$month'] is not one of the month names, the number every
    entry's month is compared with is [-1 + 1 = 0]; a month number is at
    least 1, so every element of [revenueDataSet] and of [expensesDataSet]
    is 0, in every row, for every filter. *)
Theorem line_chart_all_zero :
  forall months currentMonth userId filter coll,
    ~ In "$$month" months ->
    monthOperand months = 0
    /\ Forall
         (fun row =>
            Forall (fun v => v = 0)
                   (revenueDataSet (revenuesAndExpensesLineChart row))
            /\ Forall (fun v => v = 0)
                      (expensesDataSet (revenuesAndExpensesLineChart row)))
         (getCharts months currentMonth userId filter coll).
Proof.
  intros months currentMonth userId filter coll Hnot. split.
  - unfold monthOperand. rewrite (indexOf_absent _ _ Hnot). reflexivity.
  - apply Forall_forall. intros row Hin.
    apply getCharts_rows in Hin as (d & _ & _ & _ & ->). simpl.
    split; apply Forall_forall; intros v Hv;
      apply in_map_iff in Hv as (label & <- & _);
      apply reduce_add_never; intros x; apply never_month_zero; exact Hnot.
Qed.

Lemma placeholder_not_a_month_name : ~ In "$$month" monthNames.
Proof. not_listed. Defined.

(** C3 at the English month names, in June, for a record with entries in January and February. *)
Lemma line_chart_all_zero_witness :
  monthOperand monthNames = 0
  /\ Forall
       (fun row =>
          Forall (fun v => v = 0)
                 (revenueDataSet (revenuesAndExpensesLineChart row))
          /\ Forall (fun v => v = 0)
                    (expensesDataSet (revenuesAndExpensesLineChart row)))
       (getCharts monthNames 5 7 None [recordJanFeb]).
Proof.
  apply (line_chart_all_zero monthNames 5 7 None [recordJanFeb]).
  exact placeholder_not_a_month_name.
Defined.

Lemma rangeSelects_spec filter d :
  rangeSelects filter d = true <->
  (forall s, opt filter startDate = Some s ->
     (exists r, In r (revenues d) /\ s <= rev_date r)
     /\ (exists x, In x (expenses d) /\ s <= exp_date x))
  /\ (forall e, opt filter endDate = Some e ->
        (exists r, In r (revenues d) /\ rev_date r <= e)
        /\ (exists x, In x (expenses d) /\ exp_date x <= e)).
Proof.
  unfold rangeSelects. rewrite andb_true_iff.
  assert (Hex : forall (E : Type) (p : E -> bool) (P : E -> Prop) (l : list E),
             (forall x, p x = true <-> P x) ->
             existsb p l = true <-> exists x, In x l /\ P x).
  { intros E p P l Hp. rewrite existsb_exists.
    split; intros (x & Hx & H); exists x; split; auto; apply Hp; exact H. }
  split.
  - intros [Hs He]. split.
    + intros s Heq. rewrite Heq in Hs. apply andb_true_iff in Hs as [H1 H2].
      split; [apply (Hex _ _ (fun r => s <= rev_date r)) in H1
             |apply (Hex _ _ (fun x => s <= exp_date x)) in H2]; auto;
        intros x; apply Z.leb_le.
    + intros e Heq. rewrite Heq in He. apply andb_true_iff in He as [H1 H2].
      split; [apply (Hex _ _ (fun r => rev_date r <= e)) in H1
             |apply (Hex _ _ (fun x => exp_date x <= e)) in H2]; auto;
        intros x; apply Z.leb_le.
  - intros [Hs He]. split.
    + destruct (opt filter startDate) as [s|]; [|reflexivity].
      destruct (Hs s eq_refl) as [H1 H2]. apply andb_true_iff.
      split; [apply (Hex _ _ (fun r => s <= rev_date r))
             |apply (Hex _ _ (fun x => s <= exp_date x))]; auto;
        intros x; apply Z.leb_le.
    + destruct (opt filter endDate) as [e|]; [|reflexivity].
      destruct (He e eq_refl) as [H1 H2]. apply andb_true_iff.
      split; [apply (Hex _ _ (fun r => rev_date r <= e))
             |apply (Hex _ _ (fun x => exp_date x <= e))]; auto;
        intros x; apply Z.leb_le.
Qed.

Lemma doughnut_of_record months labels d :
  dn_labels (expensesDoughnut (project_charts months labels d)) = expenseTypes
  /\ datasets (expensesDoughnut (project_charts months labels d))
     = map (fun label =>
              sumWhere (fun e => String.eqb label (category e)) exp_amount
                       (expenses d))
           expenseTypes.
Proof.
  split; [reflexivity|].
  unfold project_charts. cbn [expensesDoughnut datasets].
  apply map_ext. intros label. apply reduce_add_sumWhere.
Qed.

(** C4, counterexample.  With [startDate] = 2024-02-01 a record with a
    revenue on 2024-02-01 and Food expenses of 10 on 2024-01-01 and 20 on
    2024-03-01 is selected, and its doughnut reports 30 for Food: the
    expense before [startDate] is counted.  Restricting the entries to the
    range would report 20.  The last part is the same call in full, in
    June, with the labels "01" to "31". *)
Lemma getCharts_range_keeps_entries_out_of_range :
  map (fun row => datasets (expensesDoughnut row))
      (getCharts monthNames 5 7 fromFebruary [recordAroundFebruary])
  = [ [0; 0; 30; 0; 0] ]
  /\ datasets
       (expensesDoughnut
          (project_charts monthNames (firstn 5 monthNames)
             (restrictedToRange fromFebruary recordAroundFebruary)))
     = [0; 0; 20; 0; 0]
  /\ (exists rows,
        Full.getCharts monthNames dayNumerals 5 7 fromFebruary
          [recordAroundFebruary]
        = Full.Rows rows
        /\ map (fun b => datasets (expensesDoughnut (Full.cb_charts b))) rows
           = [ [0; 0; 30; 0; 0] ]).
Proof.
  split; [vm_compute; reflexivity|]. split; [vm_compute; reflexivity|].
  eexists. split; vm_compute; reflexivity.
Qed.


(* ================================================================== *)
(** ** The create operations *)

Lemma updateById_absent id update coll :
  (forall d, In d coll -> _id d <> id) ->
  updateById id update coll = (None, coll).
Proof.
  induction coll as [|d rest IH]; intros Habsent; simpl; [reflexivity|].
  destruct (N.eqb_spec (_id d) id) as [Heq|Hne].
  - exfalso. apply (Habsent d); [left; reflexivity|exact Heq].
  - rewrite IH by (intros d' Hd'; apply Habsent; right; exact Hd').
    reflexivity.
Qed.

(** An update that keeps [_id] replaces the document [findById] names by its
    update, and [findById] then names the updated document. *)
Lemma updateById_present id update coll d0 :
  (forall d, _id (update d) = _id d) ->
  findById id coll = Some d0 ->
  exists coll',
    updateById id update coll = (Some (update d0), coll')
    /\ findById id coll' = Some (update d0)
    /\ List.length coll' = List.length coll.
Proof.
  intros Hkeep. unfold findById.
  induction coll as [|d rest IH]; intros Hfind; simpl in *; [discriminate|].
  destruct (N.eqb_spec (_id d) id) as [Heq|Hne].
  - injection Hfind as ->. exists (update d0 :: rest). simpl.
    rewrite Hkeep. rewrite (proj2 (N.eqb_eq _ _) Heq). auto.
  - destruct (IH Hfind) as (rest' & Hupd & Hfound & Hlen).
    exists (d :: rest'). rewrite Hupd. simpl.
    destruct (N.eqb_spec (_id d) id) as [Heq|_]; [contradiction|].
    rewrite Hlen. auto.
Qed.

Lemma findById_absent id coll :
  (forall d, In d coll -> _id d <> id) -> findById id coll = None.
Proof.
  intros Habsent. unfold findById.
  destruct (find _ coll) as [d|] eqn:Hfind; [|reflexivity].
  apply find_some in Hfind as [Hin Heq]. apply N.eqb_eq in Heq.
  exfalso. exact (Habsent d Hin Heq).
Qed.

Lemma createExpense_unfold userId expense coll :
  createExpense userId expense coll
  = applyUpdate userId (addToSet_expenses expense) coll.
Proof.
  unfold createExpense, applyUpdate, bind, findByIdAndUpdate, throw, ret.
  destruct (updateById _ _ coll) as [[d|] coll']; reflexivity.
Qed.

Lemma createRevenue_unfold {User : Type} (getUserById : ObjectId -> Outcome User)
    userId revenue coll :
  createRevenue getUserById userId revenue coll
  = match getUserById (source revenue) with
    | Resolved _ => applyUpdate userId (addToSet_revenues revenue) coll
    | Rejected e => (Rejected e, coll)
    end.
Proof.
  unfold createRevenue, applyUpdate, bind, settled, findByIdAndUpdate, throw, ret.
  destruct (getUserById _); [|reflexivity].
  destruct (updateById _ _ coll) as [[d|] coll']; reflexivity.
Qed.

Lemma createReceivable_unfold {User : Type}
    (getUserById : ObjectId -> Outcome User) userId receivable coll :
  createReceivable getUserById userId receivable coll
  = match getUserById (client receivable) with
    | Resolved _ => applyUpdate userId (addToSet_receivables receivable) coll
    | Rejected e => (Rejected e, coll)
    end.
Proof.
  unfold createReceivable, applyUpdate, bind, settled, findByIdAndUpdate,
    throw, ret.
  destruct (getUserById _); [|reflexivity].
  destruct (updateById _ _ coll) as [[d|] coll']; reflexivity.
Qed.

Lemma applyUpdate_absent userId update coll :
  (forall d, In d coll -> _id d <> userId) ->
  applyUpdate userId update coll
  = (Rejected (mkApiError DashboardDataNotFound), coll).
Proof.
  intros Habsent. unfold applyUpdate.
  rewrite (updateById_absent _ _ _ Habsent). reflexivity.
Qed.

(** C5.  When the user lookup rejects the [source] of a revenue (resp. the
    [client] of a receivable), [createRevenue] (resp. [createReceivable])
    rejects with the very same error and the collection is left as it was:
    the update is never issued. *)
Theorem create_rejected_reference_propagates :
  forall (User : Type) (getUserById : ObjectId -> Outcome User)
         userId revenue receivable e1 e2 coll,
    getUserById (source revenue) = Rejected e1 ->
    getUserById (client receivable) = Rejected e2 ->
    createRevenue getUserById userId revenue coll = (Rejected e1, coll)
    /\ createReceivable getUserById userId receivable coll
       = (Rejected e2, coll).
Proof.
  intros User getUserById userId revenue receivable e1 e2 coll H1 H2.
  rewrite createRevenue_unfold, createReceivable_unfold, H1, H2. auto.
Qed.

(** C5 at a directory that holds user 8 only and references to user 404. *)
Lemma create_rejected_reference_propagates_witness :
  createRevenue (lookupIn [8%N]) 1 ghostRevenue [emptyRecord 1 7]
  = (Rejected (mkApiError ReferenceNotFound), [emptyRecord 1 7])
  /\ createReceivable (lookupIn [8%N]) 1 ghostReceivable [emptyRecord 1 7]
     = (Rejected (mkApiError ReferenceNotFound), [emptyRecord 1 7]).
Proof.
  apply (create_rejected_reference_propagates ObjectId (lookupIn [8%N]) 1
           ghostRevenue ghostReceivable).
  - reflexivity.
  - reflexivity.
Defined.

(** C6 (as amended).  When no record is stored under [userId] and none
    belongs to [userId]: [createExpense], and [createRevenue] and
    [createReceivable] once the lookup has accepted the reference, reject
    with [DashboardDataNotFound] and leave the collection as it was, while
    [getOverview] returns the empty list and, in any month but January,
    the [getCharts] call returns no row. *)
Theorem absent_record_creates_fail_reads_empty :
  forall (User : Type) (getUserById : ObjectId -> Outcome User)
         createDateFilter months dayLabels currentMonth userId
         revenue receivable expense u1 u2 ofilter cfilter coll,
    (forall d, In d coll -> _id d <> userId) ->
    (forall d, In d coll -> user d <> userId) ->
    getUserById (source revenue) = Resolved u1 ->
    getUserById (client receivable) = Resolved u2 ->
    currentMonth <> 0%nat ->
    createRevenue getUserById userId revenue coll
    = (Rejected (mkApiError DashboardDataNotFound), coll)
    /\ createReceivable getUserById userId receivable coll
       = (Rejected (mkApiError DashboardDataNotFound), coll)
    /\ createExpense userId expense coll
       = (Rejected (mkApiError DashboardDataNotFound), coll)
    /\ getOverview createDateFilter userId ofilter coll = []
    /\ Full.getCharts months dayLabels currentMonth userId cfilter coll
       = Full.Rows [].
Proof.
  intros User getUserById createDateFilter months dayLabels currentMonth
         userId revenue receivable expense u1 u2 ofilter cfilter coll
         Hid Huser H1 H2 Hmonth.
  rewrite createRevenue_unfold, createReceivable_unfold, createExpense_unfold,
    H1, H2, !(applyUpdate_absent _ _ _ Hid).
  repeat (split; [reflexivity|]). split.
  - rewrite getOverview_unfold, (none_of_user _ _ _ Huser). reflexivity.
  - apply Full_getCharts_of_absent_user; assumption.
Qed.

(** C6 in June, at a collection whose only record is stored under 1 and
    belongs to user 2. *)
Lemma absent_record_creates_fail_reads_empty_witness :
  createRevenue (lookupIn [8%N]) 7 goodRevenue [emptyRecord 1 2]
  = (Rejected (mkApiError DashboardDataNotFound), [emptyRecord 1 2])
  /\ createReceivable (lookupIn [8%N]) 7 goodReceivable [emptyRecord 1 2]
     = (Rejected (mkApiError DashboardDataNotFound), [emptyRecord 1 2])
  /\ createExpense 7 lunch [emptyRecord 1 2]
     = (Rejected (mkApiError DashboardDataNotFound), [emptyRecord 1 2])
  /\ getOverview (createDateFilterOn "revenues.date") 7 year2024
       [emptyRecord 1 2] = []
  /\ Full.getCharts monthNames dayNumerals 5 7 fromFebruary [emptyRecord 1 2]
     = Full.Rows [].
Proof.
  apply (absent_record_creates_fail_reads_empty ObjectId (lookupIn [8%N])
           (createDateFilterOn "revenues.date") monthNames dayNumerals 5 7
           goodRevenue goodReceivable lunch 8%N 8%N).
  - intros d [<-|[]]. discriminate.
  - intros d [<-|[]]. discriminate.
  - reflexivity.
  - reflexivity.
  - discriminate.
Defined.

(** C6, counterexample.  With no record at all and a reference the lookup
    does not resolve, [createRevenue] and [createReceivable] reject with the
    error of the lookup, not with [DashboardDataNotFound].  And in January
    the [getCharts] call does not return an empty result: the database
    refuses it. *)
Lemma absent_record_unresolved_reference :
  createRevenue (lookupIn [8%N]) 7 ghostRevenue []
  = (Rejected (mkApiError ReferenceNotFound), [])
  /\ createReceivable (lookupIn [8%N]) 7 ghostReceivable []
     = (Rejected (mkApiError ReferenceNotFound), [])
  /\ Full.getCharts monthNames dayNumerals 0 7 None []
     = Full.Refused Full.InvalidProjection.
Proof. repeat split; reflexivity. Qed.

(** C7 (as amended).  The create operations look the record up by [_id],
    the read operations by [user].  If a record belongs to [userId] and no
    record is stored under the identifier [userId], then [createExpense],
    and [createRevenue] and [createReceivable] once the lookup has accepted
    the reference, reject with [DashboardDataNotFound], while [getOverview]
    returns the row of that record whenever the record satisfies the filter
    object (always, when the filter object is empty); and every row of
    [getCharts] is the row of a record that belongs to [userId]. *)
Theorem record_read_by_user_updated_by_id :
  forall (User : Type) (getUserById : ObjectId -> Outcome User)
         createDateFilter months currentMonth userId
         revenue receivable expense u1 u2 filter cfilter coll d,
    In d coll ->
    user d = userId ->
    (forall d', In d' coll -> _id d' <> userId) ->
    getUserById (source revenue) = Resolved u1 ->
    getUserById (client receivable) = Resolved u2 ->
    selectedBy (createDateFilter (opt filter date) (opt filter month)
                                 (opt filter year)) d = true ->
    createRevenue getUserById userId revenue coll
    = (Rejected (mkApiError DashboardDataNotFound), coll)
    /\ createReceivable getUserById userId receivable coll
       = (Rejected (mkApiError DashboardDataNotFound), coll)
    /\ createExpense userId expense coll
       = (Rejected (mkApiError DashboardDataNotFound), coll)
    /\ In (project_overview d)
          (getOverview createDateFilter userId filter coll)
    /\ Forall
         (fun row =>
            exists d', In d' coll /\ user d' = userId
                       /\ _id d' <> userId /\ ch_id row = _id d')
         (getCharts months currentMonth userId cfilter coll).
Proof.
  intros User getUserById createDateFilter months currentMonth userId
         revenue receivable expense u1 u2 filter cfilter coll d
         Hd Huser Hid H1 H2 Hq.
  rewrite createRevenue_unfold, createReceivable_unfold, createExpense_unfold,
    H1, H2, !(applyUpdate_absent _ _ _ Hid).
  repeat (split; [reflexivity|]).
  split.
  - apply N.eqb_eq in Huser.
    rewrite getOverview_unfold. apply in_map. apply filter_In.
    split; [exact Hd|]. rewrite Hq, Huser. reflexivity.
  - apply Forall_forall. intros row Hrow.
    apply getCharts_rows in Hrow as (d' & Hd' & Hu' & _ & ->).
    exists d'. repeat split; auto.
Qed.

(** C7 at the record of user 7 stored under identifier 1. *)
Lemma record_read_by_user_updated_by_id_witness :
  createRevenue (lookupIn [8%N]) 7 goodRevenue [emptyRecord 1 7]
  = (Rejected (mkApiError DashboardDataNotFound), [emptyRecord 1 7])
  /\ createReceivable (lookupIn [8%N]) 7 goodReceivable [emptyRecord 1 7]
     = (Rejected (mkApiError DashboardDataNotFound), [emptyRecord 1 7])
  /\ createExpense 7 lunch [emptyRecord 1 7]
     = (Rejected (mkApiError DashboardDataNotFound), [emptyRecord 1 7])
  /\ In (project_overview (emptyRecord 1 7))
        (getOverview (createDateFilterOn "revenues.date") 7 None
           [emptyRecord 1 7])
  /\ Forall
       (fun row =>
          exists d', In d' [emptyRecord 1 7] /\ user d' = 7%N
                     /\ _id d' <> 7%N /\ ch_id row = _id d')
       (getCharts monthNames 5 7 None [emptyRecord 1 7]).
Proof.
  apply (record_read_by_user_updated_by_id ObjectId (lookupIn [8%N])
           (createDateFilterOn "revenues.date") monthNames 5 7
           goodRevenue goodReceivable lunch 8%N 8%N None None
           [emptyRecord 1 7] (emptyRecord 1 7)).
  - left. reflexivity.
  - reflexivity.
  - intros d' [<-|[]]. discriminate.
  - reflexivity.
  - reflexivity.
  - reflexivity.
Defined.

(** C7, counterexample.  The collection holds a record of user 7 stored
    under identifier 1, and a record of user 9 stored under identifier 7.
    [createExpense 7] succeeds: it appends to the record of user 9.  And
    [createRevenue 7] with a reference the lookup does not resolve rejects
    with the error of the lookup. *)
Lemma crossed_identifiers_update_succeeds :
  In (emptyRecord 1 7) crossedIds
  /\ createExpense 7 lunch crossedIds
     = (Resolved (mkDashboard 7 9 [] [] [lunch]),
        [ emptyRecord 1 7; mkDashboard 7 9 [] [] [lunch] ])
  /\ createRevenue (lookupIn [8%N]) 7 ghostRevenue [emptyRecord 1 7]
     = (Rejected (mkApiError ReferenceNotFound), [emptyRecord 1 7]).
Proof. repeat split; try reflexivity. left. reflexivity. Qed.

(* ================================================================== *)
(** ** [$addToSet] *)

Lemma expense_eqb_eq (a b : Expense) : expense_eqb a b = true <-> a = b.
Proof.
  unfold expense_eqb. destruct a as [a1 a2 a3], b as [b1 b2 b3]; simpl.
  rewrite !andb_true_iff, !Z.eqb_eq, String.eqb_eq. split.
  - intros [[-> ->] ->]. reflexivity.
  - intros H. injection H as -> -> ->. auto.
Qed.

Lemma addToSet_holds {A : Type} (eqb : A -> A -> bool) (x : A) (l : list A) :
  (forall a b, eqb a b = true <-> a = b) ->
  In x (addToSet eqb x l).
Proof.
  intros Heq. unfold addToSet.
  destruct (existsb (eqb x) l) eqn:Hex.
  - apply existsb_exists in Hex as (y & Hy & Hxy).
    apply Heq in Hxy. subst y. exact Hy.
  - apply in_or_app. right. left. reflexivity.
Qed.

Lemma addToSet_twice {A : Type} (eqb : A -> A -> bool) (x : A) (l : list A) :
  (forall a b, eqb a b = true <-> a = b) ->
  addToSet eqb x (addToSet eqb x l) = addToSet eqb x l.
Proof.
  intros Heq. unfold addToSet at 1.
  assert (Hin : existsb (eqb x) (addToSet eqb x l) = true).
  { apply existsb_exists. exists x. split.
    - apply addToSet_holds. exact Heq.
    - apply Heq. reflexivity. }
  rewrite Hin. reflexivity.
Qed.

Lemma addToSet_expenses_twice expense d :
  addToSet_expenses expense (addToSet_expenses expense d)
  = addToSet_expenses expense d.
Proof.
  unfold addToSet_expenses; simpl.
  rewrite (addToSet_twice _ _ _ expense_eqb_eq). reflexivity.
Qed.

Lemma updateById_twice id update coll :
  (forall d, _id (update d) = _id d) ->
  (forall d, update (update d) = update d) ->
  updateById id update (snd (updateById id update coll))
  = updateById id update coll.
Proof.
  intros Hkeep Hidem.
  induction coll as [|d rest IH]; simpl; [reflexivity|].
  destruct (N.eqb_spec (_id d) id) as [Heq|Hne]; simpl.
  - rewrite Hkeep, (proj2 (N.eqb_eq _ _) Heq), Hidem. reflexivity.
  - destruct (updateById id update rest) as [found rest'] eqn:Hrest.
    simpl in *. destruct (N.eqb_spec (_id d) id) as [Heq|_]; [contradiction|].
    rewrite IH. reflexivity.
Qed.

Lemma applyUpdate_twice userId update coll :
  (forall d, _id (update d) = _id d) ->
  (forall d, update (update d) = update d) ->
  applyUpdate userId update (snd (applyUpdate userId update coll))
  = applyUpdate userId update coll.
Proof.
  intros Hkeep Hidem. unfold applyUpdate at 1 3.
  assert (Hsnd : snd (applyUpdate userId update coll)
                 = snd (updateById userId update coll)).
  { unfold applyUpdate.
    destruct (updateById userId update coll) as [[d|] c]; reflexivity. }
  rewrite Hsnd, (updateById_twice _ _ _ Hkeep Hidem). reflexivity.
Qed.

Lemma stored_app e l l' : stored e (l ++ l') = (stored e l + stored e l')%nat.
Proof. unfold stored. rewrite filter_app, length_app. reflexivity. Qed.

Lemma stored_none e l : ~ In e l -> stored e l = 0%nat.
Proof.
  intros Hnot. unfold stored.
  induction l as [|x l IH]; simpl; [reflexivity|].
  destruct (expense_eqb e x) eqn:Hx.
  - apply expense_eqb_eq in Hx. subst x. exfalso. apply Hnot. left. reflexivity.
  - apply IH. intros Hin. apply Hnot. right. exact Hin.
Qed.

Lemma stored_some e l : In e l -> (1 <= stored e l)%nat.
Proof.
  intros Hin. unfold stored.
  induction l as [|x l IH]; simpl; [contradiction|].
  destruct (expense_eqb e x) eqn:Hx; simpl; [lia|].
  destruct Hin as [->|Hin]; [|exact (IH Hin)].
  rewrite (proj2 (expense_eqb_eq e e) eq_refl) in Hx. discriminate.
Qed.

Lemma existsb_expense e l : existsb (expense_eqb e) l = true <-> In e l.
Proof.
  rewrite existsb_exists. split.
  - intros (x & Hx & Heq). apply expense_eqb_eq in Heq. subst x. exact Hx.
  - intros Hin. exists e. split; [exact Hin|]. apply expense_eqb_eq. reflexivity.
Qed.

(** What [$addToSet] of an expense does to the array: the expense is in it
    afterwards; an array that held it is unchanged, an array that did not
    gets it appended at the end. *)
Lemma addToSet_expense e l :
  In e (addToSet expense_eqb e l)
  /\ (In e l -> addToSet expense_eqb e l = l)
  /\ (~ In e l -> addToSet expense_eqb e l = (l ++ [e])%list)
  /\ stored e (addToSet expense_eqb e l) = Nat.max 1 (stored e l).
Proof.
  split; [apply addToSet_holds; exact expense_eqb_eq|].
  unfold addToSet. destruct (existsb (expense_eqb e) l) eqn:Hex.
  - apply existsb_expense in Hex. split; [reflexivity|]. split.
    + intros Hnot. contradiction.
    + pose proof (stored_some e l Hex). lia.
  - assert (Hnot : ~ In e l).
    { intros Hin. apply existsb_expense in Hin. congruence. }
    split; [intros Hin; contradiction|]. split; [reflexivity|].
    rewrite stored_app, (stored_none e l Hnot). unfold stored. simpl.
    rewrite (proj2 (expense_eqb_eq e e) eq_refl). reflexivity.
Qed.

(** C8.  A second [createExpense] with the same expense for the same
    [userId] changes nothing: the collection after the second call is the
    collection after the first, and both calls return the same record.
    After the calls the record holds the expense: an array that already
    held it is as it was, an array that did not has it once, appended at
    the end; so the number of stored instances is the number there was
    before, or one if there was none.  If the record had no expense before,
    its [expenses] is the one-element list of that expense, of length 1. *)
Theorem createExpense_twice_stores_once :
  forall userId expense coll,
    createExpense userId expense (snd (createExpense userId expense coll))
    = createExpense userId expense coll
    /\ (forall d0,
          findById userId coll = Some d0 ->
          exists d1,
            fst (createExpense userId expense coll) = Resolved d1
            /\ findById userId (snd (createExpense userId expense coll))
               = Some d1
            /\ expenses d1 = addToSet expense_eqb expense (expenses d0)
            /\ (expenses d0 = [] ->
                expenses d1 = [expense]
                /\ List.length (expenses d1) = 1%nat)
            /\ fst (createExpense userId expense
                      (snd (createExpense userId expense coll)))
               = Resolved d1
            /\ findById userId
                 (snd (createExpense userId expense
                         (snd (createExpense userId expense coll))))
               = Some d1
            /\ In expense (expenses d1)
            /\ (In expense (expenses d0) -> expenses d1 = expenses d0)
            /\ (~ In expense (expenses d0) ->
                expenses d1 = (expenses d0 ++ [expense])%list)
            /\ stored expense (expenses d1)
               = Nat.max 1 (stored expense (expenses d0))).
Proof.
  intros userId expense coll.
  assert (Htwice :
    createExpense userId expense (snd (createExpense userId expense coll))
    = createExpense userId expense coll).
  { rewrite !createExpense_unfold. apply applyUpdate_twice.
    - reflexivity.
    - apply addToSet_expenses_twice. }
  split; [exact Htwice|].
  intros d0 Hfind. rewrite Htwice. rewrite createExpense_unfold.
  unfold applyUpdate.
  destruct (updateById_present userId (addToSet_expenses expense) coll d0)
    as (coll' & Hupd & Hfound & _); [reflexivity|exact Hfind|].
  rewrite Hupd. exists (addToSet_expenses expense d0).
  cbn [fst snd].
  destruct (addToSet_expense expense (expenses d0))
    as (Hin & Hsame & Hnew & Hcount).
  split; [reflexivity|]. split; [exact Hfound|]. split; [reflexivity|].
  split.
  { intros Hempty. simpl. rewrite Hempty. split; reflexivity. }
  split; [reflexivity|]. split; [exact Hfound|].
  split; [exact Hin|]. split; [exact Hsame|]. split; [exact Hnew|].
  exact Hcount.
Qed.

(** C8 at a record that already holds another expense. *)
Lemma createExpense_twice_stores_once_witness :
  exists d1,
    fst (createExpense 7 crypto [recordWithLunch]) = Resolved d1
    /\ findById 7 (snd (createExpense 7 crypto [recordWithLunch])) = Some d1
    /\ expenses d1 = addToSet expense_eqb crypto (expenses recordWithLunch)
    /\ (expenses recordWithLunch = [] ->
        expenses d1 = [crypto] /\ List.length (expenses d1) = 1%nat)
    /\ fst (createExpense 7 crypto
              (snd (createExpense 7 crypto [recordWithLunch])))
       = Resolved d1
    /\ findById 7
         (snd (createExpense 7 crypto
                 (snd (createExpense 7 crypto [recordWithLunch]))))
       = Some d1
    /\ In crypto (expenses d1)
    /\ (In crypto (expenses recordWithLunch) ->
        expenses d1 = expenses recordWithLunch)
    /\ (~ In crypto (expenses recordWithLunch) ->
        expenses d1 = (expenses recordWithLunch ++ [crypto])%list)
    /\ stored crypto (expenses d1)
       = Nat.max 1 (stored crypto (expenses recordWithLunch)).
Proof.
  apply (proj2 (createExpense_twice_stores_once 7 crypto [recordWithLunch])
               recordWithLunch).
  reflexivity.
Defined.

(** C10.  [createExpense] never consults [expenseTypes]: for an expense
    whose category is none of the five, and a record stored under [userId],
    the call resolves with the updated record, which holds the expense
    (appended at the end when no equal entry was there), and the collection
    holds the updated record. *)
Theorem createExpense_any_category :
  forall userId expense coll d0,
    ~ In (category expense) expenseTypes ->
    findById userId coll = Some d0 ->
    exists d1 coll',
      createExpense userId expense coll = (Resolved d1, coll')
      /\ findById userId coll' = Some d1
      /\ d1 = addToSet_expenses expense d0
      /\ In expense (expenses d1)
      /\ (existsb (expense_eqb expense) (expenses d0) = false ->
          expenses d1 = (expenses d0 ++ [expense])%list).
Proof.
  intros userId expense coll d0 _ Hfind.
  destruct (updateById_present userId (addToSet_expenses expense) coll d0)
    as (coll' & Hupd & Hfound & _); [reflexivity|exact Hfind|].
  exists (addToSet_expenses expense d0), coll'.
  rewrite createExpense_unfold. unfold applyUpdate. rewrite Hupd.
  repeat split; auto.
  - simpl. apply addToSet_holds. exact expense_eqb_eq.
  - intros Hnew. simpl. unfold addToSet. rewrite Hnew. reflexivity.
Qed.

Lemma crypto_not_an_expense_type : ~ In (category crypto) expenseTypes.
Proof. not_listed. Defined.

(** C10 at the category Crypto. *)
Lemma createExpense_any_category_witness :
  exists d1 coll',
    createExpense 7 crypto [mkDashboard 7 7 [] [] [lunch]]
    = (Resolved d1, coll')
    /\ findById 7 coll' = Some d1
    /\ d1 = addToSet_expenses crypto (mkDashboard 7 7 [] [] [lunch])
    /\ In crypto (expenses d1)
    /\ (existsb (expense_eqb crypto)
                (expenses (mkDashboard 7 7 [] [] [lunch])) = false ->
        expenses d1
        = (expenses (mkDashboard 7 7 [] [] [lunch]) ++ [crypto])%list).
Proof.
  apply (createExpense_any_category 7 crypto
           [mkDashboard 7 7 [] [] [lunch]] (mkDashboard 7 7 [] [] [lunch])).
  - exact crypto_not_an_expense_type.
  - reflexivity.
Defined.

(* ================================================================== *)
(** * Further properties of the service *)

(** ** Sums over keyed buckets *)

Lemma sumWhere_cons {E : Type} (test : E -> bool) (amount : E -> Z)
    (x : E) (l : list E) :
  sumWhere test amount (x :: l)
  = (if test x then amount x else 0) + sumWhere test amount l.
Proof. unfold sumWhere. simpl. destruct (test x); reflexivity. Qed.

Lemma sumWhere_app {E : Type} (test : E -> bool) (amount : E -> Z)
    (l l' : list E) :
  sumWhere test amount (l ++ l')
  = sumWhere test amount l + sumWhere test amount l'.
Proof.
  induction l as [|x l IH]; [reflexivity|].
  simpl app. rewrite !sumWhere_cons, IH. lia.
Qed.

Lemma sum_list_app (l l' : list Z) :
  sum_list (l ++ l') = sum_list l + sum_list l'.
Proof. induction l as [|x l IH]; simpl; [reflexivity|]. rewrite IH. lia. Qed.

(* ================================================================== *)
(** ** getOverview and getCharts: further properties *)

Lemma totalRevenue_all (d : Dashboard) :
  totalRevenue (project_overview d) = sum_list (map rev_amount (revenues d)).
Proof. apply (op_sum_path rev_amount). Qed.

Lemma totalReceivables_all (d : Dashboard) :
  totalReceivables (project_overview d)
  = sum_list (map rcv_amount (receivables d)).
Proof. apply (op_sum_path rcv_amount). Qed.

Lemma totalExpenses_all (d : Dashboard) :
  totalExpenses (project_overview d) = sum_list (map exp_amount (expenses d)).
Proof. apply (op_sum_path exp_amount). Qed.

(** X1.  [pendingReceivables] is 0 in every row [getOverview] returns, for
    every user, filter and collection, whatever the statuses of the
    receivables: the [$eq] of its [$cond] compares the array of all the
    statuses with one string. *)
Theorem getOverview_pending_always_zero :
  forall createDateFilter userId filter coll,
    Forall (fun row => pendingReceivables row = 0)
           (getOverview createDateFilter userId filter coll).
Proof.
  intros createDateFilter userId filter coll.
  rewrite getOverview_unfold. apply Forall_forall. intros row Hin.
  apply in_map_iff in Hin as (d & <- & _). apply pendingReceivables_zero.
Qed.

Lemma bound_needs_both_kinds filter d :
  isSome (opt filter startDate) || isSome (opt filter endDate) = true ->
  rangeSelects filter d = true ->
  revenues d <> [] /\ expenses d <> [].
Proof.
  unfold rangeSelects. intros Hbound Hsel.
  apply andb_true_iff in Hsel as [Hs He].
  destruct (opt filter startDate) as [s|]; simpl in Hbound.
  - apply andb_true_iff in Hs as [H1 H2].
    split; intros Hnil; [rewrite Hnil in H1|rewrite Hnil in H2]; discriminate.
  - destruct (opt filter endDate) as [e|]; [|discriminate].
    apply andb_true_iff in He as [H1 H2].
    split; intros Hnil; [rewrite Hnil in H1|rewrite Hnil in H2]; discriminate.
Qed.

Lemma same_key_same_record {A K : Type} (key : A -> K) (l : list A) (a b : A) :
  NoDup (map key l) -> In a l -> In b l -> key a = key b -> a = b.
Proof.
  induction l as [|x l IH]; intros Hnodup Ha Hb Hkey; [contradiction|].
  simpl in Hnodup. inversion Hnodup as [|k ks Hnotin Hrest]; subst.
  destruct Ha as [->|Ha], Hb as [->|Hb].
  - reflexivity.
  - exfalso. apply Hnotin. rewrite Hkey. apply in_map. exact Hb.
  - exfalso. apply Hnotin. rewrite <- Hkey. apply in_map. exact Ha.
  - apply IH; assumption.
Qed.

(** X3.  As soon as [startDate] or [endDate] is given, [getCharts] returns
    rows only for records that hold at least one revenue entry and at least
    one expense entry: with identifiers that are unique in the collection, a
    record without revenues or without expenses gets no row, whatever the
    bounds are. *)
Theorem bounded_charts_need_revenue_and_expense :
  forall months currentMonth userId filter coll,
    isSome (opt filter startDate) || isSome (opt filter endDate) = true ->
    Forall
      (fun row =>
         exists d, In d coll /\ ch_id row = _id d
                   /\ revenues d <> [] /\ expenses d <> [])
      (getCharts months currentMonth userId filter coll)
    /\ (NoDup (map _id coll) ->
        forall d, In d coll -> revenues d = [] \/ expenses d = [] ->
        Forall (fun row => ch_id row <> _id d)
               (getCharts months currentMonth userId filter coll)).
Proof.
  intros months currentMonth userId filter coll Hbound. split.
  - apply Forall_forall. intros row Hin.
    apply getCharts_rows in Hin as (d & Hd & _ & Hsel & ->).
    exists d. split; [exact Hd|]. split; [reflexivity|].
    exact (bound_needs_both_kinds filter d Hbound Hsel).
  - intros Hnodup d Hd Hempty. apply Forall_forall. intros row Hin Hid.
    apply getCharts_rows in Hin as (d' & Hd' & _ & Hsel & ->).
    simpl in Hid.
    assert (d' = d) as -> by (apply (same_key_same_record _id coll); auto).
    destruct (bound_needs_both_kinds filter d Hbound Hsel) as [Hr He].
    destruct Hempty; contradiction.
Qed.

(** X3 at a start date, a record with both kinds of entries and a record of
    the same user with none. *)
Lemma bounded_charts_need_revenue_and_expense_witness :
  Forall
    (fun row =>
       exists d, In d [recordAroundFebruary; emptyRecord 2 7]
                 /\ ch_id row = _id d
                 /\ revenues d <> [] /\ expenses d <> [])
    (getCharts monthNames 5 7 fromFebruary
       [recordAroundFebruary; emptyRecord 2 7])
  /\ (NoDup (map _id [recordAroundFebruary; emptyRecord 2 7]) ->
      forall d, In d [recordAroundFebruary; emptyRecord 2 7] ->
      revenues d = [] \/ expenses d = [] ->
      Forall (fun row => ch_id row <> _id d)
             (getCharts monthNames 5 7 fromFebruary
                [recordAroundFebruary; emptyRecord 2 7])).
Proof.
  apply (bounded_charts_need_revenue_and_expense monthNames 5 7 fromFebruary
           [recordAroundFebruary; emptyRecord 2 7]).
  reflexivity.
Defined.

(* ================================================================== *)
(** ** The create operations: further properties *)

Lemma revenue_eqb_eq (a b : Revenue) : revenue_eqb a b = true <-> a = b.
Proof.
  unfold revenue_eqb. destruct a as [a1 a2 a3], b as [b1 b2 b3]; simpl.
  rewrite !andb_true_iff, !Z.eqb_eq, N.eqb_eq. split.
  - intros [[-> ->] ->]. reflexivity.
  - intros H. injection H as -> -> ->. auto.
Qed.

Lemma receivable_eqb_eq (a b : Receivable) :
  receivable_eqb a b = true <-> a = b.
Proof.
  unfold receivable_eqb.
  destruct a as [a1 a2 a3 a4], b as [b1 b2 b3 b4]; simpl.
  rewrite !andb_true_iff, !Z.eqb_eq, String.eqb_eq, N.eqb_eq. split.
  - intros [[[-> ->] ->] ->]. reflexivity.
  - intros H. injection H as -> -> -> ->. auto.
Qed.

Lemma addToSet_same_or_last {A : Type} (eqb : A -> A -> bool) (x : A)
    (l : list A) :
  (existsb (eqb x) l = true /\ addToSet eqb x l = l)
  \/ (existsb (eqb x) l = false /\ addToSet eqb x l = (l ++ [x])%list).
Proof. unfold addToSet. destruct (existsb (eqb x) l); auto. Qed.

Lemma addToSet_extends {A : Type} (eqb : A -> A -> bool) (x : A) (l : list A) :
  extends l (addToSet eqb x l).
Proof.
  destruct (addToSet_same_or_last eqb x l) as [[_ ->]|[_ ->]].
  - exists []. rewrite app_nil_r. reflexivity.
  - exists [x]. reflexivity.
Qed.

Lemma addToSet_revenues_twice revenue d :
  addToSet_revenues revenue (addToSet_revenues revenue d)
  = addToSet_revenues revenue d.
Proof.
  unfold addToSet_revenues; simpl.
  rewrite (addToSet_twice _ _ _ revenue_eqb_eq). reflexivity.
Qed.

Lemma addToSet_receivables_twice receivable d :
  addToSet_receivables receivable (addToSet_receivables receivable d)
  = addToSet_receivables receivable d.
Proof.
  unfold addToSet_receivables; simpl.
  rewrite (addToSet_twice _ _ _ receivable_eqb_eq). reflexivity.
Qed.

Lemma snd_updateById_cons id update d rest :
  snd (updateById id update (d :: rest))
  = if N.eqb (_id d) id then update d :: rest
    else d :: snd (updateById id update rest).
Proof.
  simpl. destruct (N.eqb (_id d) id); [reflexivity|].
  destruct (updateById id update rest); reflexivity.
Qed.

Lemma snd_applyUpdate userId update coll :
  snd (applyUpdate userId update coll) = snd (updateById userId update coll).
Proof.
  unfold applyUpdate.
  destruct (updateById userId update coll) as [[d|] c]; reflexivity.
Qed.

Lemma findById_none id coll :
  findById id coll = None -> forall d, In d coll -> _id d <> id.
Proof.
  unfold findById. intros Hnone d Hd Heq.
  pose proof (find_none _ _ Hnone d Hd) as H. simpl in H.
  apply N.eqb_neq in H. contradiction.
Qed.

(** Where [updateById] works: on the first record stored under [id]. *)
Lemma updateById_split id update coll d0 :
  findById id coll = Some d0 ->
  exists pre post,
    coll = (pre ++ d0 :: post)%list
    /\ (forall d, In d pre -> _id d <> id)
    /\ _id d0 = id
    /\ updateById id update coll
       = (Some (update d0), (pre ++ update d0 :: post)%list).
Proof.
  unfold findById.
  induction coll as [|d rest IH]; intros Hfind; simpl in *; [discriminate|].
  destruct (N.eqb_spec (_id d) id) as [Heq|Hne].
  - injection Hfind as ->. exists [], rest. simpl. repeat split; auto.
  - destruct (IH Hfind) as (pre & post & -> & Hpre & Hid & Hupd).
    exists (d :: pre), post. rewrite Hupd. simpl. repeat split; auto.
    intros d' [<-|Hd']; auto.
Qed.

Lemma snd_updateById_sameOrGrown id update coll
    (grow : Dashboard -> Dashboard -> Prop) :
  (forall d, update d = d \/ grow d (update d)) ->
  sameOrGrown id grow coll (snd (updateById id update coll)).
Proof.
  intros Hgrow. destruct (findById id coll) as [d0|] eqn:Hfind.
  - destruct (updateById_split id update coll d0 Hfind)
      as (pre & post & Hcoll & Hpre & Hid & Hupd).
    rewrite Hupd. simpl. destruct (Hgrow d0) as [Hsame|Hgrown].
    + left. rewrite Hsame. symmetry. exact Hcoll.
    + right. exists pre, d0, (update d0), post. auto.
  - left. rewrite (updateById_absent _ _ _ (findById_none _ _ Hfind)).
    reflexivity.
Qed.

Lemma snd_createRevenue {User : Type} (getUserById : ObjectId -> Outcome User)
    userId revenue coll :
  snd (createRevenue getUserById userId revenue coll)
  = match getUserById (source revenue) with
    | Resolved _ => snd (updateById userId (addToSet_revenues revenue) coll)
    | Rejected _ => coll
    end.
Proof.
  rewrite createRevenue_unfold. destruct (getUserById _); [|reflexivity].
  apply snd_applyUpdate.
Qed.

Lemma snd_createReceivable {User : Type}
    (getUserById : ObjectId -> Outcome User) userId receivable coll :
  snd (createReceivable getUserById userId receivable coll)
  = match getUserById (client receivable) with
    | Resolved _ =>
        snd (updateById userId (addToSet_receivables receivable) coll)
    | Rejected _ => coll
    end.
Proof.
  rewrite createReceivable_unfold. destruct (getUserById _); [|reflexivity].
  apply snd_applyUpdate.
Qed.

Lemma snd_createExpense userId expense coll :
  snd (createExpense userId expense coll)
  = snd (updateById userId (addToSet_expenses expense) coll).
Proof. rewrite createExpense_unfold. apply snd_applyUpdate. Qed.

(** X4.  Whatever its outcome, a create operation leaves the collection as
    it was or appends exactly one entry, at the end of the one array it is
    for, in the first record stored under [userId]: no record is added,
    removed or moved, no identifier or owner changes, and no stored entry is
    altered, removed or reordered. *)
Theorem create_appends_one_entry_or_nothing :
  forall (User : Type) (getUserById : ObjectId -> Outcome User)
         userId revenue receivable expense coll,
    sameOrGrown userId
      (fun d0 d1 =>
         d1 = mkDashboard (_id d0) (user d0) (revenues d0 ++ [revenue])
                          (receivables d0) (expenses d0))
      coll (snd (createRevenue getUserById userId revenue coll))
    /\ sameOrGrown userId
         (fun d0 d1 =>
            d1 = mkDashboard (_id d0) (user d0) (revenues d0)
                             (receivables d0 ++ [receivable]) (expenses d0))
         coll (snd (createReceivable getUserById userId receivable coll))
    /\ sameOrGrown userId
         (fun d0 d1 =>
            d1 = mkDashboard (_id d0) (user d0) (revenues d0)
                             (receivables d0) (expenses d0 ++ [expense]))
         coll (snd (createExpense userId expense coll)).
Proof.
  intros User getUserById userId revenue receivable expense coll.
  split; [|split].
  - rewrite snd_createRevenue.
    destruct (getUserById (source revenue)); [|left; reflexivity].
    apply snd_updateById_sameOrGrown. intros [i u rs cs es].
    unfold addToSet_revenues; simpl.
    destruct (addToSet_same_or_last revenue_eqb revenue rs) as [[_ ->]|[_ ->]];
      auto.
  - rewrite snd_createReceivable.
    destruct (getUserById (client receivable)); [|left; reflexivity].
    apply snd_updateById_sameOrGrown. intros [i u rs cs es].
    unfold addToSet_receivables; simpl.
    destruct (addToSet_same_or_last receivable_eqb receivable cs)
      as [[_ ->]|[_ ->]]; auto.
  - rewrite snd_createExpense.
    apply snd_updateById_sameOrGrown. intros [i u rs cs es].
    unfold addToSet_expenses; simpl.
    destruct (addToSet_same_or_last expense_eqb expense es) as [[_ ->]|[_ ->]];
      auto.
Qed.

(** X5.  When the lookup accepts the [source] and a record is stored under
    [userId], [createRevenue] resolves with the updated record, which is the
    record now stored under [userId]: it holds the revenue, its earlier
    revenues are kept in place before it, and its owner, receivables and
    expenses are untouched. *)
Theorem createRevenue_appends_to_record :
  forall (User : Type) (getUserById : ObjectId -> Outcome User)
         userId revenue u coll d0,
    getUserById (source revenue) = Resolved u ->
    findById userId coll = Some d0 ->
    exists d1 coll',
      createRevenue getUserById userId revenue coll = (Resolved d1, coll')
      /\ findById userId coll' = Some d1
      /\ _id d1 = userId /\ user d1 = user d0
      /\ In revenue (revenues d1)
      /\ extends (revenues d0) (revenues d1)
      /\ receivables d1 = receivables d0
      /\ expenses d1 = expenses d0.
Proof.
  intros User getUserById userId revenue u coll d0 Hlookup Hfind.
  destruct (updateById_present userId (addToSet_revenues revenue) coll d0)
    as (coll' & Hupd & Hfound & _); [reflexivity|exact Hfind|].
  destruct (updateById_split userId (addToSet_revenues revenue) coll d0 Hfind)
    as (_ & _ & _ & _ & Hid & _).
  exists (addToSet_revenues revenue d0), coll'.
  rewrite createRevenue_unfold, Hlookup. unfold applyUpdate. rewrite Hupd.
  simpl. repeat split; auto.
  - apply addToSet_holds. exact revenue_eqb_eq.
  - apply addToSet_extends.
Qed.

(** X5 at a directory that holds user 8 and a record stored under 7. *)
Lemma createRevenue_appends_to_record_witness :
  exists d1 coll',
    createRevenue (lookupIn [8%N]) 7 goodRevenue [recordFifths]
    = (Resolved d1, coll')
    /\ findById 7 coll' = Some d1
    /\ _id d1 = 7%N /\ user d1 = user recordFifths
    /\ In goodRevenue (revenues d1)
    /\ extends (revenues recordFifths) (revenues d1)
    /\ receivables d1 = receivables recordFifths
    /\ expenses d1 = expenses recordFifths.
Proof.
  apply (createRevenue_appends_to_record ObjectId (lookupIn [8%N]) 7
           goodRevenue 8%N [recordFifths] recordFifths).
  - reflexivity.
  - reflexivity.
Defined.

(** X6.  When the lookup accepts the [client] and a record is stored under
    [userId], [createReceivable] resolves with the updated record, which is
    the record now stored under [userId]: it holds the receivable, its
    earlier receivables are kept in place before it, and its owner, revenues
    and expenses are untouched. *)
Theorem createReceivable_appends_to_record :
  forall (User : Type) (getUserById : ObjectId -> Outcome User)
         userId receivable u coll d0,
    getUserById (client receivable) = Resolved u ->
    findById userId coll = Some d0 ->
    exists d1 coll',
      createReceivable getUserById userId receivable coll
      = (Resolved d1, coll')
      /\ findById userId coll' = Some d1
      /\ _id d1 = userId /\ user d1 = user d0
      /\ In receivable (receivables d1)
      /\ extends (receivables d0) (receivables d1)
      /\ revenues d1 = revenues d0
      /\ expenses d1 = expenses d0.
Proof.
  intros User getUserById userId receivable u coll d0 Hlookup Hfind.
  destruct (updateById_present userId (addToSet_receivables receivable) coll d0)
    as (coll' & Hupd & Hfound & _); [reflexivity|exact Hfind|].
  destruct (updateById_split userId (addToSet_receivables receivable) coll d0
              Hfind) as (_ & _ & _ & _ & Hid & _).
  exists (addToSet_receivables receivable d0), coll'.
  rewrite createReceivable_unfold, Hlookup. unfold applyUpdate. rewrite Hupd.
  simpl. repeat split; auto.
  - apply addToSet_holds. exact receivable_eqb_eq.
  - apply addToSet_extends.
Qed.

(** X6 at a directory that holds user 8 and a record stored under 7. *)
Lemma createReceivable_appends_to_record_witness :
  exists d1 coll',
    createReceivable (lookupIn [8%N]) 7 goodReceivable [recordFifths]
    = (Resolved d1, coll')
    /\ findById 7 coll' = Some d1
    /\ _id d1 = 7%N /\ user d1 = user recordFifths
    /\ In goodReceivable (receivables d1)
    /\ extends (receivables recordFifths) (receivables d1)
    /\ revenues d1 = revenues recordFifths
    /\ expenses d1 = expenses recordFifths.
Proof.
  apply (createReceivable_appends_to_record ObjectId (lookupIn [8%N]) 7
           goodReceivable 8%N [recordFifths] recordFifths).
  - reflexivity.
  - reflexivity.
Defined.

(** X7.  A second [createRevenue] (resp. [createReceivable]) with the same
    entry for the same [userId] settles as the first did and leaves the
    collection as the first left it, whether the lookup accepts the
    reference or not and whether the record exists or not. *)
Theorem create_with_reference_twice_stores_once :
  forall (User : Type) (getUserById : ObjectId -> Outcome User)
         userId revenue receivable coll,
    createRevenue getUserById userId revenue
      (snd (createRevenue getUserById userId revenue coll))
    = createRevenue getUserById userId revenue coll
    /\ createReceivable getUserById userId receivable
         (snd (createReceivable getUserById userId receivable coll))
       = createReceivable getUserById userId receivable coll.
Proof.
  intros User getUserById userId revenue receivable coll. split.
  - rewrite !createRevenue_unfold.
    destruct (getUserById (source revenue)); [|reflexivity].
    apply applyUpdate_twice; [reflexivity|apply addToSet_revenues_twice].
  - rewrite !createReceivable_unfold.
    destruct (getUserById (client receivable)); [|reflexivity].
    apply applyUpdate_twice; [reflexivity|apply addToSet_receivables_twice].
Qed.

Lemma updateById_commute i j f g coll :
  (forall d, _id (f d) = _id d) ->
  (forall d, _id (g d) = _id d) ->
  (forall d, f (g d) = g (f d)) ->
  snd (updateById i f (snd (updateById j g coll)))
  = snd (updateById j g (snd (updateById i f coll))).
Proof.
  intros Hf Hg Hcomm. induction coll as [|d rest IH]; [reflexivity|].
  rewrite (snd_updateById_cons j g d rest), (snd_updateById_cons i f d rest).
  destruct (N.eqb (_id d) j) eqn:Hj, (N.eqb (_id d) i) eqn:Hi;
    rewrite !snd_updateById_cons, ?Hf, ?Hg, ?Hi, ?Hj, ?Hcomm, ?IH;
    reflexivity.
Qed.

(** X8.  Create operations for different arrays commute: the collection
    after a [createRevenue], a [createReceivable] and a [createExpense] does
    not depend on the order of the calls, for any identifiers (equal or not)
    and any outcome of the lookups. *)
Theorem creates_for_different_arrays_commute :
  forall (User : Type) (getUserById : ObjectId -> Outcome User)
         u1 u2 u3 revenue receivable expense coll,
    snd (createExpense u3 expense
           (snd (createRevenue getUserById u1 revenue coll)))
    = snd (createRevenue getUserById u1 revenue
             (snd (createExpense u3 expense coll)))
    /\ snd (createExpense u3 expense
              (snd (createReceivable getUserById u2 receivable coll)))
       = snd (createReceivable getUserById u2 receivable
                (snd (createExpense u3 expense coll)))
    /\ snd (createReceivable getUserById u2 receivable
              (snd (createRevenue getUserById u1 revenue coll)))
       = snd (createRevenue getUserById u1 revenue
                (snd (createReceivable getUserById u2 receivable coll))).
Proof.
  intros User getUserById u1 u2 u3 revenue receivable expense coll.
  rewrite !snd_createExpense, !snd_createRevenue, !snd_createReceivable.
  destruct (getUserById (source revenue)), (getUserById (client receivable));
    repeat split; try reflexivity;
    apply updateById_commute; reflexivity.
Qed.






Lemma updated_record_stored id update coll d0 :
  findById id coll = Some d0 ->
  exists coll',
    updateById id update coll = (Some (update d0), coll')
    /\ In (update d0) coll'.
Proof.
  intros Hfind.
  destruct (updateById_split id update coll d0 Hfind)
    as (pre & post & _ & _ & _ & Hupd).
  exists (pre ++ update d0 :: post)%list. split; [exact Hupd|].
  apply in_elt.
Qed.

Lemma selected_rows createDateFilter months currentMonth filter coll d :
  In d coll ->
  (selectedBy (createDateFilter (opt filter date) (opt filter month)
                                (opt filter year)) d = true ->
   In (project_overview d)
      (getOverview createDateFilter (user d) filter coll))
  /\ In (project_charts months (firstn currentMonth months) d)
        (getCharts months currentMonth (user d) None coll).
Proof.
  intros Hd. split.
  - intros Hsel. rewrite getOverview_unfold. apply in_map. apply filter_In.
    split; [exact Hd|]. rewrite Hsel, N.eqb_refl. reflexivity.
  - rewrite getCharts_unfold. apply in_map. apply filter_In.
    split; [exact Hd|]. rewrite N.eqb_refl. reflexivity.
Qed.

(** X11.  A [createRevenue] (resp. [createReceivable]) that stores a new
    entry shows in the overview of the record: [totalRevenue] (resp.
    [totalReceivables]) of the updated record grows by the amount and the
    other two totals stay; the updated record is in the collection. *)
Theorem create_with_reference_shows_in_overview :
  forall (User : Type) (getUserById : ObjectId -> Outcome User)
         userId revenue receivable u1 u2 coll d0,
    getUserById (source revenue) = Resolved u1 ->
    getUserById (client receivable) = Resolved u2 ->
    findById userId coll = Some d0 ->
    existsb (revenue_eqb revenue) (revenues d0) = false ->
    existsb (receivable_eqb receivable) (receivables d0) = false ->
    (exists d1 coll',
       createRevenue getUserById userId revenue coll = (Resolved d1, coll')
       /\ In d1 coll'
       /\ totalRevenue (project_overview d1)
          = totalRevenue (project_overview d0) + rev_amount revenue
       /\ totalReceivables (project_overview d1)
          = totalReceivables (project_overview d0)
       /\ totalExpenses (project_overview d1)
          = totalExpenses (project_overview d0))
    /\ (exists d1 coll',
          createReceivable getUserById userId receivable coll
          = (Resolved d1, coll')
          /\ In d1 coll'
          /\ totalReceivables (project_overview d1)
             = totalReceivables (project_overview d0) + rcv_amount receivable
          /\ totalRevenue (project_overview d1)
             = totalRevenue (project_overview d0)
          /\ totalExpenses (project_overview d1)
             = totalExpenses (project_overview d0)).
Proof.
  intros User getUserById userId revenue receivable u1 u2 coll d0
         H1 H2 Hfind Hnew1 Hnew2.
  split.
  - destruct (updated_record_stored userId (addToSet_revenues revenue) coll d0
                Hfind) as (coll' & Hupd & Hin).
    exists (addToSet_revenues revenue d0), coll'.
    rewrite createRevenue_unfold, H1. unfold applyUpdate. rewrite Hupd.
    split; [reflexivity|]. split; [exact Hin|].
    split; [|split; reflexivity].
    rewrite !totalRevenue_all. simpl. unfold addToSet. rewrite Hnew1.
    rewrite map_app, sum_list_app. simpl. lia.
  - destruct (updated_record_stored userId (addToSet_receivables receivable)
                coll d0 Hfind) as (coll' & Hupd & Hin).
    exists (addToSet_receivables receivable d0), coll'.
    rewrite createReceivable_unfold, H2. unfold applyUpdate. rewrite Hupd.
    split; [reflexivity|]. split; [exact Hin|].
    split; [|split; reflexivity].
    rewrite !totalReceivables_all. simpl. unfold addToSet. rewrite Hnew2.
    rewrite map_app, sum_list_app. simpl. lia.
Qed.

(** X11 at a new revenue and a new receivable for the record stored
    under 7. *)
Lemma create_with_reference_shows_in_overview_witness :
  (exists d1 coll',
     createRevenue (lookupIn [8%N]) 7 goodRevenue [recordFifths]
     = (Resolved d1, coll')
     /\ In d1 coll'
     /\ totalRevenue (project_overview d1)
        = totalRevenue (project_overview recordFifths) + rev_amount goodRevenue
     /\ totalReceivables (project_overview d1)
        = totalReceivables (project_overview recordFifths)
     /\ totalExpenses (project_overview d1)
        = totalExpenses (project_overview recordFifths))
  /\ (exists d1 coll',
        createReceivable (lookupIn [8%N]) 7 goodReceivable [recordFifths]
        = (Resolved d1, coll')
        /\ In d1 coll'
        /\ totalReceivables (project_overview d1)
           = totalReceivables (project_overview recordFifths)
             + rcv_amount goodReceivable
        /\ totalRevenue (project_overview d1)
           = totalRevenue (project_overview recordFifths)
        /\ totalExpenses (project_overview d1)
           = totalExpenses (project_overview recordFifths)).
Proof.
  apply (create_with_reference_shows_in_overview ObjectId (lookupIn [8%N]) 7
           goodRevenue goodReceivable 8%N 8%N [recordFifths] recordFifths);
    reflexivity.
Defined.

(* ================================================================== *)
(** ** The bar chart *)

(** [$dayOfMonth] yields a day from 1 to 31, for every timestamp. *)
Lemma op_dayOfMonth_range (t : Date) : 1 <= op_dayOfMonth t <= 31.
Proof.
  unfold op_dayOfMonth, dayOfMonthOfDay.
  pose proof (dayOfMarchYear_range _ (dayOfEra_range (dayNumber t))) as H.
  unfold marchMonth. Z.div_mod_to_equations; lia.
Qed.

Lemma reduce_day_converts {E : Type} (date_of : E -> Date) (amount : E -> Z)
    (day : string) (n : Z) (input : list E) :
  op_toInt day = Some n ->
  forall value,
    reduce_day date_of amount day input value
    = Some (value
            + sumWhere (fun this => op_dayOfMonth (date_of this) =? n)
                       amount input).
Proof.
  intros Hday. induction input as [|x input IH]; intros value.
  - simpl. rewrite sumWhere_nil. f_equal. lia.
  - simpl. rewrite Hday, IH, sumWhere_cons. unfold op_cond. f_equal. lia.
Qed.

Lemma map_in_all {A B : Type} (f : A -> option B) (l : list A) (ys : list B) :
  Forall2 (fun x y => f x = Some y) l ys -> map_in f l = Some ys.
Proof.
  induction 1 as [|x y l ys Hxy _ IH]; simpl; [reflexivity|].
  rewrite Hxy, IH. reflexivity.
Qed.

Lemma barDataSet_converts {E : Type} (date_of : E -> Date) (amount : E -> Z)
    (dayLabels : list string) (days : list Z) (input : list E) :
  Forall2 (fun label n => op_toInt label = Some n) dayLabels days ->
  barDataSet date_of amount dayLabels input
  = Some (map (fun n =>
                 sumWhere (fun this => op_dayOfMonth (date_of this) =? n)
                          amount input)
              days).
Proof.
  intros Hconv. unfold barDataSet. apply map_in_all.
  induction Hconv as [|label n labels ns Hlabel _ IH]; simpl; constructor.
  - rewrite (reduce_day_converts _ _ _ _ _ Hlabel). f_equal.
  - exact IH.
Qed.

(** X12.  When [$toInt] converts every day label, the bar chart of a record
    has one bar per label, in label order, and the bar of a label is the sum
    of the amounts of ALL the record's revenues (resp. expenses) whose day
    of the month is the label's number: the month and the year of an entry
    are not looked at, the chart is not limited to the current month. *)
Theorem bar_chart_buckets_by_day_of_month :
  forall dayLabels days d,
    Forall2 (fun label n => op_toInt label = Some n) dayLabels days ->
    project_barChart dayLabels d
    = Some
        {| bc_labels := dayLabels;
           bc_revenueDataSet :=
             map (fun n =>
                    sumWhere (fun r => op_dayOfMonth (rev_date r) =? n)
                             rev_amount (revenues d))
                 days;
           bc_expensesDataSet :=
             map (fun n =>
                    sumWhere (fun e => op_dayOfMonth (exp_date e) =? n)
                             exp_amount (expenses d))
                 days |}.
Proof.
  intros dayLabels days d Hconv. unfold project_barChart.
  rewrite (barDataSet_converts rev_date rev_amount _ _ _ Hconv).
  rewrite (barDataSet_converts exp_date exp_amount _ _ _ Hconv).
  reflexivity.
Qed.

Lemma dayNumerals_convert :
  Forall2 (fun label n => op_toInt label = Some n) dayNumerals daysOfMonth.
Proof. repeat constructor. Qed.

(** X12 at the labels "01" to "31" and a record with revenues on the 5th of
    January and of March and an expense on the 5th of December. *)
Lemma bar_chart_buckets_by_day_of_month_witness :
  project_barChart dayNumerals recordFifths
  = Some
      {| bc_labels := dayNumerals;
         bc_revenueDataSet :=
           map (fun n =>
                  sumWhere (fun r => op_dayOfMonth (rev_date r) =? n)
                           rev_amount (revenues recordFifths))
               daysOfMonth;
         bc_expensesDataSet :=
           map (fun n =>
                  sumWhere (fun e => op_dayOfMonth (exp_date e) =? n)
                           exp_amount (expenses recordFifths))
               daysOfMonth |}.
Proof.
  apply (bar_chart_buckets_by_day_of_month dayNumerals daysOfMonth
           recordFifths).
  exact dayNumerals_convert.
Defined.

(** X14.  When a record is stored under [userId], [createExpense] resolves
    for every expense, of a listed category or not, with the updated record,
    which is the record now stored under [userId]: it holds the expense, its
    earlier expenses are kept in place before it, and its owner, revenues
    and receivables are untouched.  No user lookup is made. *)
Theorem createExpense_appends_to_record :
  forall userId expense coll d0,
    findById userId coll = Some d0 ->
    exists d1 coll',
      createExpense userId expense coll = (Resolved d1, coll')
      /\ findById userId coll' = Some d1
      /\ _id d1 = userId /\ user d1 = user d0
      /\ In expense (expenses d1)
      /\ extends (expenses d0) (expenses d1)
      /\ revenues d1 = revenues d0
      /\ receivables d1 = receivables d0.
Proof.
  intros userId expense coll d0 Hfind.
  destruct (updateById_present userId (addToSet_expenses expense) coll d0)
    as (coll' & Hupd & Hfound & _); [reflexivity|exact Hfind|].
  destruct (updateById_split userId (addToSet_expenses expense) coll d0 Hfind)
    as (_ & _ & _ & _ & Hid & _).
  exists (addToSet_expenses expense d0), coll'.
  rewrite createExpense_unfold. unfold applyUpdate. rewrite Hupd.
  simpl. repeat split; auto.
  - apply addToSet_holds. exact expense_eqb_eq.
  - apply addToSet_extends.
Qed.

(** X14 at a Food expense for the record stored under 7. *)
Lemma createExpense_appends_to_record_witness :
  exists d1 coll',
    createExpense 7 lunch [recordFifths] = (Resolved d1, coll')
    /\ findById 7 coll' = Some d1
    /\ _id d1 = 7%N /\ user d1 = user recordFifths
    /\ In lunch (expenses d1)
    /\ extends (expenses recordFifths) (expenses d1)
    /\ revenues d1 = revenues recordFifths
    /\ receivables d1 = receivables recordFifths.
Proof.
  apply (createExpense_appends_to_record 7 lunch [recordFifths] recordFifths).
  reflexivity.
Defined.

(* ================================================================== *)
(** ** The whole [getCharts] call *)

Lemma barChart_defined dayLabels days d :
  Forall2 (fun label n => op_toInt label = Some n) dayLabels days ->
  exists bar, project_barChart dayLabels d = Some bar.
Proof.
  intros Hconv. unfold project_barChart.
  rewrite (barDataSet_converts rev_date rev_amount _ _ _ Hconv).
  rewrite (barDataSet_converts exp_date exp_amount _ _ _ Hconv).
  eexists. reflexivity.
Qed.

Lemma map_in_Forall2 {A B : Type} (f : A -> option B) (l : list A) :
  forall ys, map_in f l = Some ys -> Forall2 (fun x y => f x = Some y) l ys.
Proof.
  induction l as [|x l IH]; intros ys Hys; simpl in Hys.
  - injection Hys as <-. constructor.
  - destruct (f x) as [y|] eqn:Hx; [|discriminate].
    destruct (map_in f l) as [ys'|]; [|discriminate].
    injection Hys as <-. constructor; [exact Hx|apply IH; reflexivity].
Qed.

(** Outside January, with day labels that [$toInt] converts, the database
    answers the call with rows. *)
Lemma Full_getCharts_answers months dayLabels days currentMonth userId filter
    coll :
  currentMonth <> 0%nat ->
  Forall2 (fun label n => op_toInt label = Some n) dayLabels days ->
  exists rows,
    Full.getCharts months dayLabels currentMonth userId filter coll
    = Full.Rows rows
    /\ map Full.cb_charts rows
       = getCharts months currentMonth userId filter coll.
Proof.
  intros Hmonth Hconv.
  destruct (map_in_defined
              (Full.project_bundle months (firstn currentMonth months)
                                   dayLabels)
              (stage_match (Full.chartsMatch userId filter) coll))
    as [rows Hrows].
  { intros d _. unfold Full.project_bundle.
    destruct (barChart_defined dayLabels days d Hconv) as [bar ->].
    eexists. reflexivity. }
  assert (Hanswer :
    Full.getCharts months dayLabels currentMonth userId filter coll
    = Full.Rows rows).
  { unfold Full.getCharts.
    rewrite (proj2 (Nat.eqb_neq _ _) Hmonth), Hrows. reflexivity. }
  exists rows. split; [exact Hanswer|].
  exact (Full_getCharts_charts _ _ _ _ _ _ _ Hanswer).
Qed.

(** C4 (as amended).  A date range selects whole records, not entries.
    When the call returns rows (it does in any month but January, with day
    labels that convert), there is one row for each record of [userId] that
    the range selects: a record with some revenue entry and some expense
    entry with [date >= startDate] (if given) and some revenue entry and
    some expense entry with [date <= endDate] (if given), both bounds
    inclusive.  The three charts of the row are computed over all the
    entries of the record, inside the range or not. *)
Theorem getCharts_range_selects_whole_records :
  forall months dayLabels currentMonth userId filter coll,
    (forall rows,
       Full.getCharts months dayLabels currentMonth userId filter coll
       = Full.Rows rows ->
       Forall2
         (fun d b =>
            Full.cb_charts b
            = project_charts months (firstn currentMonth months) d
            /\ project_barChart dayLabels d = Some (Full.cb_bar b))
         (List.filter
            (fun d => N.eqb (user d) userId && rangeSelects filter d) coll)
         rows)
    /\ (forall days,
          currentMonth <> 0%nat ->
          Forall2 (fun label n => op_toInt label = Some n) dayLabels days ->
          exists rows,
            Full.getCharts months dayLabels currentMonth userId filter coll
            = Full.Rows rows)
    /\ (forall d,
          rangeSelects filter d = true <->
          (forall s, opt filter startDate = Some s ->
             (exists r, In r (revenues d) /\ s <= rev_date r)
             /\ (exists x, In x (expenses d) /\ s <= exp_date x))
          /\ (forall e, opt filter endDate = Some e ->
                (exists r, In r (revenues d) /\ rev_date r <= e)
                /\ (exists x, In x (expenses d) /\ exp_date x <= e)))
    /\ (forall labels d,
          datasets (expensesDoughnut (project_charts months labels d))
          = map (fun label =>
                   sumWhere (fun e => String.eqb label (category e))
                            exp_amount (expenses d))
                expenseTypes).
Proof.
  intros months dayLabels currentMonth userId filter coll.
  split; [|split; [|split]].
  - intros rows. unfold Full.getCharts.
    destruct (Nat.eqb currentMonth 0); [discriminate|].
    destruct (map_in _ _) as [ys|] eqn:Hys; [|discriminate].
    intros Hrows. injection Hrows as <-.
    rewrite <- stage_match_charts.
    apply map_in_Forall2 in Hys.
    induction Hys as [|d b ds bs Hdb _ IH]; constructor; [|exact IH].
    unfold Full.project_bundle in Hdb.
    destruct (project_barChart dayLabels d) as [bar|]; [|discriminate].
    injection Hdb as <-. split; reflexivity.
  - intros days Hmonth Hconv.
    destruct (Full_getCharts_answers months dayLabels days currentMonth
                userId filter coll Hmonth Hconv) as (rows & Hrows & _).
    exists rows. exact Hrows.
  - intros d. apply rangeSelects_spec.
  - intros labels d. apply doughnut_of_record.
Qed.

(** C4 in June, with the labels "01" to "31": the call returns rows. *)
Lemma getCharts_range_selects_whole_records_witness :
  exists rows,
    Full.getCharts monthNames dayNumerals 5 7 fromFebruary
      [recordAroundFebruary]
    = Full.Rows rows.
Proof.
  apply (proj1 (proj2 (getCharts_range_selects_whole_records monthNames
                         dayNumerals 5 7 fromFebruary [recordAroundFebruary]))
               daysOfMonth).
  - discriminate.
  - exact dayNumerals_convert.
Defined.

(** C9.  Every row of [getCharts] carries the doughnut with the labels of
    [expenseTypes], in that order, and under each label the sum of the
    amounts of the record's expenses whose category is that label.  In any
    month but January, with day labels that convert and no date bound, the
    call returns a row for every record of [userId]; for a record with no
    expense entry the five sums are 0.  In January the database refuses the
    call and no doughnut is returned. *)
Theorem doughnut_sums_by_category :
  forall months dayLabels currentMonth userId coll,
    (forall filter,
       Forall
         (fun row =>
            exists d, In d coll /\ user d = userId /\ ch_id row = _id d
              /\ dn_labels (expensesDoughnut row) = expenseTypes
              /\ datasets (expensesDoughnut row)
                 = map (fun label =>
                          sumWhere (fun e => String.eqb label (category e))
                                   exp_amount (expenses d))
                       expenseTypes)
         (getCharts months currentMonth userId filter coll))
    /\ (forall filter days d,
          currentMonth <> 0%nat ->
          Forall2 (fun label n => op_toInt label = Some n) dayLabels days ->
          opt filter startDate = None -> opt filter endDate = None ->
          In d coll -> user d = userId -> expenses d = [] ->
          exists rows b,
            Full.getCharts months dayLabels currentMonth userId filter coll
            = Full.Rows rows
            /\ In b rows
            /\ ch_id (Full.cb_charts b) = _id d
            /\ dn_labels (expensesDoughnut (Full.cb_charts b)) = expenseTypes
            /\ datasets (expensesDoughnut (Full.cb_charts b))
               = [0; 0; 0; 0; 0])
    /\ (forall filter,
          Full.getCharts months dayLabels 0 userId filter coll
          = Full.Refused Full.InvalidProjection).
Proof.
  intros months dayLabels currentMonth userId coll. split; [|split].
  - intros filter. apply Forall_forall. intros row Hin.
    apply getCharts_rows in Hin as (d & Hd & Hu & _ & ->).
    exists d. repeat split; auto. apply doughnut_of_record.
  - intros filter days d Hmonth Hconv Hstart Hend Hd Hu Hnone.
    destruct (Full_getCharts_answers months dayLabels days currentMonth
                userId filter coll Hmonth Hconv) as (rows & Hrows & Hcharts).
    assert (Hrow : In (project_charts months (firstn currentMonth months) d)
                      (map Full.cb_charts rows)).
    { rewrite Hcharts, getCharts_unfold. apply in_map. apply filter_In.
      split; [exact Hd|]. apply andb_true_iff.
      split; [apply N.eqb_eq; exact Hu|].
      unfold rangeSelects. rewrite Hstart, Hend. reflexivity. }
    apply in_map_iff in Hrow as (b & Hb & Hin).
    exists rows, b. rewrite Hb.
    split; [exact Hrows|]. split; [exact Hin|].
    split; [reflexivity|]. split; [reflexivity|].
    rewrite (proj2 (doughnut_of_record _ _ _)), Hnone. reflexivity.
  - intros filter. reflexivity.
Qed.

(** C9 in June, at a record of user 7 with no entry at all. *)
Lemma doughnut_sums_by_category_witness :
  exists rows b,
    Full.getCharts monthNames dayNumerals 5 7 None [emptyRecord 1 7]
    = Full.Rows rows
    /\ In b rows
    /\ ch_id (Full.cb_charts b) = _id (emptyRecord 1 7)
    /\ dn_labels (expensesDoughnut (Full.cb_charts b)) = expenseTypes
    /\ datasets (expensesDoughnut (Full.cb_charts b)) = [0; 0; 0; 0; 0].
Proof.
  apply (proj1 (proj2 (doughnut_sums_by_category monthNames dayNumerals 5 7
                         [emptyRecord 1 7]))
               None daysOfMonth (emptyRecord 1 7)).
  - discriminate.
  - exact dayNumerals_convert.
  - reflexivity.
  - reflexivity.
  - left. reflexivity.
  - reflexivity.
  - reflexivity.
Defined.

(** X10.  A [createExpense] that stores a new expense shows in the reports
    of the record's owner: the record's [totalExpenses] grows by the amount
    and the doughnut slice of the expense's category grows by the amount
    (no slice, if the category is not listed), while [totalRevenue] and
    [totalReceivables] stay; [getOverview] returns the record's new row for
    its owner whenever the updated record satisfies the filter object, and
    so does the [getCharts] call without a date bound, in any month but
    January and with day labels that convert. *)
Theorem createExpense_shows_in_reports :
  forall createDateFilter months dayLabels days currentMonth userId expense
         filter coll d0,
    findById userId coll = Some d0 ->
    existsb (expense_eqb expense) (expenses d0) = false ->
    currentMonth <> 0%nat ->
    Forall2 (fun label n => op_toInt label = Some n) dayLabels days ->
    exists d1 coll',
      createExpense userId expense coll = (Resolved d1, coll')
      /\ totalExpenses (project_overview d1)
         = totalExpenses (project_overview d0) + exp_amount expense
      /\ totalRevenue (project_overview d1)
         = totalRevenue (project_overview d0)
      /\ totalReceivables (project_overview d1)
         = totalReceivables (project_overview d0)
      /\ datasets (expensesDoughnut
                     (project_charts months (firstn currentMonth months) d1))
         = map (fun label =>
                  sumWhere (fun e => String.eqb label (category e))
                           exp_amount (expenses d0)
                  + (if String.eqb label (category expense)
                     then exp_amount expense else 0))
               expenseTypes
      /\ (selectedBy (createDateFilter (opt filter date) (opt filter month)
                                       (opt filter year)) d1 = true ->
          In (project_overview d1)
             (getOverview createDateFilter (user d0) filter coll'))
      /\ (exists rows,
            Full.getCharts months dayLabels currentMonth (user d0) None coll'
            = Full.Rows rows
            /\ In (project_charts months (firstn currentMonth months) d1)
                  (map Full.cb_charts rows)).
Proof.
  intros createDateFilter months dayLabels days currentMonth userId expense
         filter coll d0 Hfind Hnew Hmonth Hconv.
  destruct (updated_record_stored userId (addToSet_expenses expense) coll d0
              Hfind) as (coll' & Hupd & Hin).
  exists (addToSet_expenses expense d0), coll'.
  rewrite createExpense_unfold. unfold applyUpdate. rewrite Hupd.
  split; [reflexivity|].
  assert (Hexp : expenses (addToSet_expenses expense d0)
                 = (expenses d0 ++ [expense])%list).
  { simpl. unfold addToSet. rewrite Hnew. reflexivity. }
  destruct (selected_rows createDateFilter months currentMonth filter coll'
              (addToSet_expenses expense d0) Hin) as [Hoverview Hcharts].
  split; [|split; [reflexivity|split; [reflexivity|split; [|split]]]].
  - rewrite !totalExpenses_all, Hexp, map_app, sum_list_app. simpl. lia.
  - rewrite (proj2 (doughnut_of_record _ _ _)), Hexp.
    apply map_ext. intros label.
    rewrite sumWhere_app, sumWhere_cons, sumWhere_nil. lia.
  - exact Hoverview.
  - destruct (Full_getCharts_answers months dayLabels days currentMonth
                (user d0) None coll' Hmonth Hconv) as (rows & Hrows & Hmap).
    exists rows. split; [exact Hrows|]. rewrite Hmap. exact Hcharts.
Qed.

(** X10 in June, at a new Food expense for the record stored under 7. *)
Lemma createExpense_shows_in_reports_witness :
  exists d1 coll',
    createExpense 7 lunch [recordFifths] = (Resolved d1, coll')
    /\ totalExpenses (project_overview d1)
       = totalExpenses (project_overview recordFifths) + exp_amount lunch
    /\ totalRevenue (project_overview d1)
       = totalRevenue (project_overview recordFifths)
    /\ totalReceivables (project_overview d1)
       = totalReceivables (project_overview recordFifths)
    /\ datasets (expensesDoughnut
                   (project_charts monthNames (firstn 5 monthNames) d1))
       = map (fun label =>
                sumWhere (fun e => String.eqb label (category e))
                         exp_amount (expenses recordFifths)
                + (if String.eqb label (category lunch)
                   then exp_amount lunch else 0))
             expenseTypes
    /\ (selectedBy (createDateFilterOn "expenses.date"
                      (opt year2024 date) (opt year2024 month)
                      (opt year2024 year)) d1 = true ->
        In (project_overview d1)
           (getOverview (createDateFilterOn "expenses.date")
              (user recordFifths) year2024 coll'))
    /\ (exists rows,
          Full.getCharts monthNames dayNumerals 5 (user recordFifths) None
            coll'
          = Full.Rows rows
          /\ In (project_charts monthNames (firstn 5 monthNames) d1)
                (map Full.cb_charts rows)).
Proof.
  apply (createExpense_shows_in_reports (createDateFilterOn "expenses.date")
           monthNames dayNumerals daysOfMonth 5 7 lunch year2024
           [recordFifths] recordFifths).
  - reflexivity.
  - reflexivity.
  - discriminate.
  - exact dayNumerals_convert.
Defined.
